(** * The model-class visitor of the Swagger plugin

    A shallow embedding of [src/lib/plugin/visitors/model-class.visitor.ts]:
    the resolution of one property declaration into its metadata record
    ([createDecoratorObjectLiteralExpr] and the resolvers it merges) and the
    class scan that collects the records (the visitors of [visit] on a class
    declaration, [inspectPropertyDeclaration], [addClassMetadata],
    [addMetadataFactory]).

    The TypeScript compiler API and the helpers of [../utils/ast-utils] and
    [../utils/plugin-utils] are not part of the embedded file.  The type
    checker and the helpers that consult it are parameters of the development
    (records [TypeChecker] and [Utils]); each of them may raise, which the
    [Exc] monad records. *)

From stdpp Require Import base option list strings gmap.

Local Open Scope string_scope.
Local Open Scope list_scope.

(** ** Exceptions *)

(** A JavaScript computation either returns a value or throws.  The visitor
    never inspects the thrown value, so [Throw] carries none. *)
Inductive Exc (A : Type) : Type :=
| Throw
| Return (a : A).
Arguments Throw {A}.
Arguments Return {A} a.

#[global] Instance Exc_ret : MRet Exc := @Return.
#[global] Instance Exc_bind : MBind Exc := fun A B f m =>
  match m with
  | Throw => Throw
  | Return a => f a
  end.

(** [try { body } catch (err) { handler }] *)
Definition tryCatch {A : Type} (body : Exc A) (handler : Exc A) : Exc A :=
  match body with
  | Throw => handler
  | Return a => Return a
  end.

(** ** Syntax trees *)

#[local] Set Warnings "-register-all".

(** The expressions the visitor builds or copies.  The two type assertions
    of TypeScript are apart: [AsExpression] is [expression as T]
    ([ts.isAsExpression]) and [TypeAssertionExpression] is [<T>expression].
    [SourceExpression] stands for any other expression of the source file
    the visitor copies verbatim. *)
Inductive Expression : Type :=
| Identifier (text : string)
| StringLiteral (text : string)
| TrueKeyword
| FalseKeyword
| AsExpression (expression : Expression) (typeText : string)
| TypeAssertionExpression (typeText : string) (expression : Expression)
| ArrayLiteralExpression (elements : list Expression)
| ParenthesizedExpression (expression : Expression)
| ArrowFunction (body : Expression)
| ObjectLiteralExpression (properties : list (string * Expression))
| SourceExpression (text : string).

(** [factory.createPropertyAssignment(name, initializer)] *)
Definition PropertyAssignment : Type := string * Expression.
Definition createPropertyAssignment (name : string) (initializer : Expression)
  : PropertyAssignment := (name, initializer).

(** The keys of a list of assignments, in order. *)
Definition keys (properties : list PropertyAssignment) : list string :=
  properties.*1.

(** A decorator [@Name(arg, ...)]. *)
Record Decorator : Type := mkDecorator {
  decoratorName : string;
  decoratorArguments : list Expression
}.

Inductive Modifier : Type :=
| StaticKeyword
| ReadonlyKeyword
| PublicKeyword
| PrivateKeyword
| ProtectedKeyword
| AbstractKeyword
| DeclareKeyword.

Inductive PropertyNameKind : Type :=
| IdentifierName
| StringLiteralName
| NumericLiteralName
| ComputedPropertyName
| PrivateIdentifierName.

(** A property name with its kind and its text ([getText()]). *)
Record PropertyName : Type := mkPropertyName {
  nameKind : PropertyNameKind;
  nameText : string
}.

(** What [ts.PropertyDeclaration] and [ts.PropertySignature] share; [T] is the
    type of type nodes.  An absent [decorators] or [modifiers] array is the
    empty list. *)
Record PropertyNode (T : Type) : Type := mkProperty {
  decorators : list Decorator;
  modifiers : list Modifier;
  name : option PropertyName;
  questionToken : bool;
  type : option T;
  initializer : option Expression
}.
Arguments mkProperty {T}.
Arguments decorators {T}.
Arguments modifiers {T}.
Arguments name {T}.
Arguments questionToken {T}.
Arguments type {T}.
Arguments initializer {T}.

(** Type nodes.  The visitor tells apart type literals, unions and the
    null-like leaves; every other node is a leaf with its source text.  The
    text of a type literal or a union is never ["null"], so only leaves carry
    one. *)
Inductive TypeNode : Type :=
| TypeLiteralNode (members : list (PropertyNode TypeNode))
| UnionTypeNode (types : list TypeNode)
| NullKeyword
| OtherTypeNode (text : string).

Definition Property : Type := PropertyNode TypeNode.

(** Induction over type nodes that reaches the members of a type literal and
    the constituents of a union. *)
Section TypeNode_nested_ind.
Variable P : TypeNode -> Prop.

Definition onTypeOf (m : Property) : Prop :=
  match type m with
  | Some t => P t
  | None => True
  end.

Hypothesis P_literal : forall members,
  Forall onTypeOf members -> P (TypeLiteralNode members).
Hypothesis P_union : forall types, Forall P types -> P (UnionTypeNode types).
Hypothesis P_null : P NullKeyword.
Hypothesis P_other : forall text, P (OtherTypeNode text).

Fixpoint TypeNode_nested_ind (node : TypeNode) : P node :=
  match node with
  | TypeLiteralNode members =>
      P_literal members
        ((fix go (ms : list Property) : Forall onTypeOf ms :=
            match ms with
            | [] => List.Forall_nil _
            | m :: ms' =>
                List.Forall_cons _ m ms'
                  (match type m as o
                     return match o with Some t => P t | None => True end
                   with
                   | Some t => TypeNode_nested_ind t
                   | None => I
                   end)
                  (go ms')
            end) members)
  | UnionTypeNode types =>
      P_union types
        ((fix go (ts : list TypeNode) : Forall P ts :=
            match ts with
            | [] => List.Forall_nil _
            | t :: ts' => List.Forall_cons _ t ts' (TypeNode_nested_ind t) (go ts')
            end) types)
  | NullKeyword => P_null
  | OtherTypeNode text => P_other text
  end.
End TypeNode_nested_ind.

(** ** Types of the checker, values and configuration *)

(** [ts.Symbol], of which the visitor reads the flags. *)
Record Symbol : Type := mkSymbol { flags : Z }.

(** [ts.SymbolFlags.EnumMember] in the TypeScript compiler API. *)
Definition SymbolFlags_EnumMember : Z := 8.

(** [ts.Type]: the visitor reads its symbol and, of a union, its
    constituents; [typeText] identifies the type. *)
Inductive TsType : Type :=
| mkTsType (typeText : string) (symbol : option Symbol)
    (constituents : list TsType).

Definition symbolOf (t : TsType) : option Symbol :=
  match t with mkTsType _ s _ => s end.

(** [(type as ts.UnionOrIntersectionType).types] *)
Definition typesOf (t : TsType) : list TsType :=
  match t with mkTsType _ _ ts => ts end.

(** The locations the visitor asks a type for: a type node (possibly absent)
    or a property. *)
Inductive Node : Type :=
| TypeNodeAt (node : option TypeNode)
| PropertyAt (node : Property).

Record TypeChecker : Type := mkTypeChecker {
  getTypeAtLocation : Node -> Exc (option TsType)
}.

Record SourceFile : Type := mkSourceFile { fileName : string }.

(** The values the documentation extractor returns as examples: scalars
    (kept as their text) and arrays of values. *)
Inductive JsValue : Type :=
| JsPrimitive (text : string)
| JsArray (items : list JsValue).

(** [PluginOptions] as merged with the plugin's defaults, which give
    [dtoKeyOfComment] a value.  The literal [{}] the type resolver passes for
    the members of a type literal is [emptyOptions]: with [introspectComments]
    unset, [dtoKeyOfComment] is not read. *)
Record PluginOptions : Type := mkPluginOptions {
  introspectComments : bool;
  classValidatorShim : bool;
  dtoKeyOfComment : string
}.

Definition emptyOptions : PluginOptions :=
  {| introspectComments := false;
     classValidatorShim := false;
     dtoKeyOfComment := "" |}.

(** The helpers of [ast-utils] and [plugin-utils] that consult the type
    system or the source text.  [extractTypeArgumentIfArray] receives [None]
    when the visitor hands it [undefined] (the last constituent of an empty
    list), and a pair it returns has a defined type. *)
Record Utils : Type := mkUtils {
  getTypeReferenceAsString : TsType -> TypeChecker -> Exc (option string);
  replaceImportPath : string -> string -> string;
  isAutoGeneratedTypeUnion : TsType -> bool;
  extractTypeArgumentIfArray : option TsType -> Exc (option (TsType * bool));
  isEnum : TsType -> bool;
  isAutoGeneratedEnumUnion : TsType -> TypeChecker -> Exc (option TsType);
  getText : TsType -> TypeChecker -> Exc string;
  getMainCommentAndExamplesOfNode :
    Property -> SourceFile -> TypeChecker -> Exc (string * list JsValue);
  createPrimitiveLiteral : string -> Expression
}.

(** ** Helpers *)

(** Modelled from the spec: [hasPropertyKey] of [plugin-utils] is not in the
    embedded file; the spec has a resolver contribute nothing when its key is
    "already present in explicit keys". *)
Definition hasPropertyKey (key : string)
    (properties : list PropertyAssignment) : bool :=
  existsb (fun item => String.eqb item.1 key) properties.

(** Modelled from the spec: [createBooleanLiteral] of [ast-utils] is not in
    the embedded file; it builds the literal of a boolean ([required] and
    [nullable] are booleans in the spec's data model). *)
Definition createBooleanLiteral (flag : bool) : Expression :=
  if flag then TrueKeyword else FalseKeyword.

(** Modelled from the spec: [getDecoratorOrUndefinedByNames] of [plugin-utils]
    is not in the embedded file; the spec's annotation reader returns the
    first annotation whose name is one of [names]. *)
Definition getDecoratorOrUndefinedByNames (names : list string)
    (decs : list Decorator) : option Decorator :=
  find (fun d => existsb (String.eqb (decoratorName d)) names) decs.

(** Modelled from the spec: [getDecoratorArguments] of [ast-utils] is not in
    the embedded file; the spec's annotation reader returns the ordered
    sequence of the annotation's raw argument expressions. *)
Definition getDecoratorArguments (d : Decorator) : list Expression :=
  decoratorArguments d.

(** [ApiHideProperty.name] *)
Definition ApiHideProperty_name : string := "ApiHideProperty".

(** JavaScript truthiness of a string. *)
Definition truthy (s : string) : bool :=
  match s with
  | EmptyString => false
  | String _ _ => true
  end.

(** An element of the array [createDecoratorObjectLiteralExpr] collects: a
    falsy value ([false] or [undefined]), one assignment, or an array of
    assignments. *)
Inductive Slot : Type :=
| Falsy
| One (assignment : PropertyAssignment)
| Many (assignments : list PropertyAssignment).

(** [...array] inside an array literal, and [Array.prototype.concat]. *)
Definition spread (assignments : list PropertyAssignment) : list Slot :=
  One <$> assignments.

(** lodash [flatten]: one level of arrays is opened. *)
Definition flatten (slots : list Slot) : list (option PropertyAssignment) :=
  slots ≫= fun s =>
    match s with
    | Falsy => [None]
    | One a => [Some a]
    | Many l => Some <$> l
    end.

(** lodash [compact]: the falsy elements are dropped. *)
Definition compact (items : list (option PropertyAssignment))
  : list PropertyAssignment :=
  omap id items.

(** The null-like test of the union branch:
    [type.kind === NullKeyword || (ts.SyntaxKind.LiteralType && type.getText() === 'null')];
    [ts.SyntaxKind.LiteralType] is a non-zero number. *)
Definition isNullLike (t : TypeNode) : bool :=
  match t with
  | NullKeyword => true
  | OtherTypeNode text => String.eqb text "null"
  | _ => false
  end.

(** [types.filter((item) => item !== nullableType)] where [nullableType] is
    [types.find(isNullLike)]: the comparison is by identity, so exactly the
    first null-like node is removed (none when there is none). *)
Fixpoint withoutFirstNullLike (types : list TypeNode) : list TypeNode :=
  match types with
  | [] => []
  | t :: rest => if isNullLike t then rest else t :: withoutFirstNullLike rest
  end.

(** ** The resolvers of [ModelClassVisitor] *)

Section ModelClassVisitor.
Context (U : Utils) (typeChecker : TypeChecker).

(** [createLiteralFromAnyValue] *)
Fixpoint createLiteralFromAnyValue (item : JsValue) : Expression :=
  match item with
  | JsArray items =>
      ArrayLiteralExpression (map createLiteralFromAnyValue items)
  | JsPrimitive text => createPrimitiveLiteral U text
  end.

(** [createDescriptionAndExamplePropertyAssigments] *)
Definition createDescriptionAndExamplePropertyAssigments (node : Property)
    (existingProperties : list PropertyAssignment) (options : PluginOptions)
    (sourceFile : option SourceFile) : Exc (list PropertyAssignment) :=
  match introspectComments options, sourceFile with
  | true, Some sf =>
      '(comments, examples) ← getMainCommentAndExamplesOfNode U node sf typeChecker;
      let propertyAssignments := [] in
      let keyOfComment := dtoKeyOfComment options in
      let propertyAssignments :=
        if negb (hasPropertyKey keyOfComment existingProperties)
           && truthy comments
        then propertyAssignments
               ++ [createPropertyAssignment keyOfComment (StringLiteral comments)]
        else propertyAssignments in
      let hasExampleOrExamplesKey :=
        hasPropertyKey "example" existingProperties
        || hasPropertyKey "examples" existingProperties in
      let propertyAssignments :=
        if negb hasExampleOrExamplesKey && negb (Nat.eqb (length examples) 0)
        then
          match examples with
          | [example] =>
              propertyAssignments
                ++ [createPropertyAssignment "example"
                      (createLiteralFromAnyValue example)]
          | _ =>
              propertyAssignments
                ++ [createPropertyAssignment "examples"
                      (createLiteralFromAnyValue (JsArray examples))]
          end
        else propertyAssignments in
      mret propertyAssignments
  | _, _ => mret []
  end.

(** [createDefaultPropertyAssignment] *)
Definition createDefaultPropertyAssignment (node : Property)
    (existingProperties : list PropertyAssignment) : Slot :=
  let key := "default" in
  if hasPropertyKey key existingProperties then Falsy
  else
    match initializer node with
    | None => Falsy
    | Some init =>
        let init :=
          match init with
          | AsExpression expression _ => expression
          | _ => init
          end in
        One (createPropertyAssignment key init)
    end.

(** [addPropertyByValidationDecorator]; the array it pushes to is threaded
    through. *)
Definition addPropertyByValidationDecorator (decoratorName propertyKey : string)
    (decs : list Decorator) (assignments : list PropertyAssignment)
  : list PropertyAssignment :=
  match getDecoratorOrUndefinedByNames [decoratorName] decs with
  | None => assignments
  | Some decoratorRef =>
      match head (getDecoratorArguments decoratorRef) with
      | Some argument =>
          assignments ++ [createPropertyAssignment propertyKey argument]
      | None => assignments
      end
  end.

(** [createValidationPropertyAssignments] *)
Definition createValidationPropertyAssignments (node : Property)
  : list PropertyAssignment :=
  let assignments := [] in
  let decs := decorators node in
  let assignments :=
    addPropertyByValidationDecorator "Min" "minimum" decs assignments in
  let assignments :=
    addPropertyByValidationDecorator "Max" "maximum" decs assignments in
  let assignments :=
    addPropertyByValidationDecorator "MinLength" "minLength" decs assignments in
  let assignments :=
    addPropertyByValidationDecorator "MaxLength" "maxLength" decs assignments in
  assignments.

(** [type.symbol && type.symbol.flags === ts.SymbolFlags.EnumMember] *)
Definition isEnumMember (t : TsType) : bool :=
  match symbolOf t with
  | Some s => Z.eqb (flags s) SymbolFlags_EnumMember
  | None => false
  end.

(** The end of [createEnumPropertyAssignment], from [const enumRef] on. *)
Definition enumAssignmentOf (t : TsType) (isArrayType : bool)
    (hostFilename : string) : Exc Slot :=
  text ← getText U t typeChecker;
  let enumRef := replaceImportPath U text hostFilename in
  let enumProperty := createPropertyAssignment "enum" (Identifier enumRef) in
  if isArrayType then
    let isArrayProperty :=
      createPropertyAssignment "isArray" (Identifier "true") in
    mret (Many [enumProperty; isArrayProperty])
  else mret (One enumProperty).

(** [createEnumPropertyAssignment] *)
Definition createEnumPropertyAssignment (node : Property)
    (existingProperties : list PropertyAssignment) (hostFilename : string)
  : Exc Slot :=
  let key := "enum" in
  if hasPropertyKey key existingProperties then mret Falsy
  else
    t ← getTypeAtLocation typeChecker (PropertyAt node);
    match t with
    | None => mret Falsy
    | Some t =>
        let t :=
          if isAutoGeneratedTypeUnion U t
          then let types := typesOf t in last types
          else Some t in
        typeIsArrayTuple ← extractTypeArgumentIfArray U t;
        match typeIsArrayTuple with
        | None => mret Falsy
        | Some (t, isArrayType) =>
            if negb (isEnum U t) || isEnumMember t then
              t ← (if negb (isEnumMember t)
                   then isAutoGeneratedEnumUnion U t typeChecker
                   else mret (Some t));
              match t with
              | None => mret Falsy
              | Some t =>
                  typeIsArrayTuple ← extractTypeArgumentIfArray U (Some t);
                  match typeIsArrayTuple with
                  | None => mret Falsy
                  | Some (t, isArrayType) =>
                      enumAssignmentOf t isArrayType hostFilename
                  end
              end
            else enumAssignmentOf t isArrayType hostFilename
        end
    end.

(** The end of [createTypePropertyAssignments], from
    [typeChecker.getTypeAtLocation(node)] on: the reference the checker
    gives for the node, if any. *)
Definition typeReferenceAssignments (node : option TypeNode)
    (hostFilename : string) : Exc (list PropertyAssignment) :=
  t ← getTypeAtLocation typeChecker (TypeNodeAt node);
  match t with
  | None => mret []
  | Some t =>
      typeReference ← getTypeReferenceAsString U t typeChecker;
      match typeReference with
      | None => mret []
      | Some typeReference =>
          if truthy typeReference then
            let typeReference :=
              replaceImportPath U typeReference hostFilename in
            mret [createPropertyAssignment "type"
                    (ArrowFunction (Identifier typeReference))]
          else mret []
      end
  end.

(** The body of [createDecoratorObjectLiteralExpr], given the outcome of
    [createTypePropertyAssignments] on [node.type]. *)
Definition decoratorObjectLiteralExprOf
    (typeAssignments : Exc (list PropertyAssignment)) (node : Property)
    (existingProperties : list PropertyAssignment) (options : PluginOptions)
    (hostFilename : string) (sourceFile : option SourceFile)
  : Exc Expression :=
  let isRequired := negb (questionToken node) in
  typeAssignments ← typeAssignments;
  docAssignments ←
    createDescriptionAndExamplePropertyAssigments node existingProperties
      options sourceFile;
  let defaultAssignment :=
    createDefaultPropertyAssignment node existingProperties in
  enumAssignment ←
    createEnumPropertyAssignment node existingProperties hostFilename;
  let properties :=
    spread existingProperties
    ++ [if negb (hasPropertyKey "required" existingProperties)
        then One (createPropertyAssignment "required"
                    (createBooleanLiteral isRequired))
        else Falsy]
    ++ spread typeAssignments
    ++ spread docAssignments
    ++ [defaultAssignment; enumAssignment] in
  let properties :=
    if classValidatorShim options
    then properties ++ spread (createValidationPropertyAssignments node)
    else properties in
  mret (ObjectLiteralExpression (compact (flatten properties))).

(** [member.name.getText()] on a member of a type literal; a member without
    a name (an index or call signature) makes the access throw. *)
Definition memberNameText (member : Property) : Exc string :=
  match name member with
  | Some n => mret (nameText n)
  | None => Throw
  end.

(** [createTypePropertyAssignments] on a present type node.  The recursive
    calls are on the types of the members of a type literal and on the one
    constituent a union keeps. *)
Fixpoint typePropertyAssignmentsOf
    (existingProperties : list PropertyAssignment) (hostFilename : string)
    (node : TypeNode) {struct node} : Exc (list PropertyAssignment) :=
  let key := "type" in
  if hasPropertyKey key existingProperties then mret []
  else
    match node with
    | TypeLiteralNode members =>
        propertyAssignments ←
          (fix mapMembers (ms : list Property)
             : Exc (list PropertyAssignment) :=
             match ms with
             | [] => mret []
             | member :: ms' =>
                 literalExpr ←
                   decoratorObjectLiteralExprOf
                     (match type member with
                      | Some t =>
                          typePropertyAssignmentsOf existingProperties
                            hostFilename t
                      | None => typeReferenceAssignments None hostFilename
                      end)
                     member existingProperties emptyOptions hostFilename None;
                 memberName ← memberNameText member;
                 rest ← mapMembers ms';
                 mret (createPropertyAssignment memberName literalExpr :: rest)
             end) members;
        mret [createPropertyAssignment key
                (ArrowFunction
                   (ParenthesizedExpression
                      (ObjectLiteralExpression propertyAssignments)))]
    | UnionTypeNode types =>
        let nullableType := find isNullLike types in
        let isNullable := bool_decide (is_Some nullableType) in
        let remainingTypes := withoutFirstNullLike types in
        if Nat.eqb (length remainingTypes) 1 then
          remainingTypesProperties ←
            (fix first (ts : list TypeNode) (dropped : bool)
               : Exc (list PropertyAssignment) :=
               match ts with
               | [] => mret []
               | t :: ts' =>
                   if negb dropped && isNullLike t then first ts' true
                   else typePropertyAssignmentsOf existingProperties
                          hostFilename t
               end) types false;
          let resultArray := remainingTypesProperties in
          let resultArray :=
            if isNullable
            then resultArray
                   ++ [createPropertyAssignment "nullable"
                         (createBooleanLiteral true)]
            else resultArray in
          mret resultArray
        else typeReferenceAssignments (Some node) hostFilename
    | _ => typeReferenceAssignments (Some node) hostFilename
    end.

(** [createTypePropertyAssignments]: [node] is absent when the property has
    no type annotation. *)
Definition createTypePropertyAssignments (node : option TypeNode)
    (existingProperties : list PropertyAssignment) (hostFilename : string)
  : Exc (list PropertyAssignment) :=
  match node with
  | Some n => typePropertyAssignmentsOf existingProperties hostFilename n
  | None =>
      if hasPropertyKey "type" existingProperties then mret []
      else typeReferenceAssignments None hostFilename
  end.

(** [createDecoratorObjectLiteralExpr] *)
Definition createDecoratorObjectLiteralExpr (node : Property)
    (existingProperties : list PropertyAssignment) (options : PluginOptions)
    (hostFilename : string) (sourceFile : option SourceFile)
  : Exc Expression :=
  decoratorObjectLiteralExprOf
    (createTypePropertyAssignments (type node) existingProperties hostFilename)
    node existingProperties options hostFilename sourceFile.

End ModelClassVisitor.

(** ** The class scan *)

(** [ClassMetadata = Record<string, ts.ObjectLiteralExpression>]: a JavaScript
    object used as a map from property names to records. *)
Abbreviation ClassMetadata := (gmap string Expression).

(** The members of a class.  [MetadataFactoryMethod] is the static method
    [addMetadataFactory] appends; it returns an object literal with one
    assignment per entry of the map it is given. *)
Inductive ClassElement : Type :=
| PropertyDeclaration (node : Property)
| MetadataFactoryMethod (methodName : string) (returnValue : ClassMetadata)
| OtherClassElement (text : string).

(** A class declaration: the text of its name, if it has one, and its
    members.  A property's [parent] is the class it is a member of, which the
    scan passes along. *)
Record ClassDeclaration : Type := mkClass {
  className : option string;
  members : list ClassElement
}.

Section ClassScan.
Context (U : Utils) (typeChecker : TypeChecker).
(** [METADATA_FACTORY_NAME] of [plugin-constants]. *)
Context (METADATA_FACTORY_NAME : string).

(** [addClassMetadata]; the map it assigns into is threaded through.  The
    map is a plain object created as [{}], so the assignment
    [metadata[propertyName] = objectLiteral] under the name [__proto__]
    reaches the prototype accessor and adds no entry. *)
Definition addClassMetadata (hostClass : ClassDeclaration) (node : Property)
    (objectLiteral : Expression) (sourceFile : SourceFile)
    (metadata : ClassMetadata) : ClassMetadata :=
  match className hostClass with
  | None => metadata
  | Some className =>
      if negb (truthy className) then metadata
      else
        match name node with
        | None => metadata
        | Some n =>
            let propertyName := nameText n in
            if negb (truthy propertyName) then metadata
            else
              match nameKind n with
              | ComputedPropertyName => metadata
              | _ =>
                  if String.eqb propertyName "__proto__" then metadata
                  else <[propertyName := objectLiteral]> metadata
              end
        end
  end.

(** [inspectPropertyDeclaration] *)
Definition inspectPropertyDeclaration (hostClass : ClassDeclaration)
    (compilerNode : Property) (options : PluginOptions)
    (hostFilename : string) (sourceFile : SourceFile)
    (metadata : ClassMetadata) : Exc ClassMetadata :=
  objectLiteralExpr ←
    createDecoratorObjectLiteralExpr U typeChecker compilerNode []
      options hostFilename (Some sourceFile);
  mret (addClassMetadata hostClass compilerNode objectLiteralExpr
          sourceFile metadata).

Definition isStaticKeyword (modifier : Modifier) : bool :=
  match modifier with
  | StaticKeyword => true
  | _ => false
  end.

(** The visitor [propertyNodeVisitorFactory(metadata)] applied to one child
    of the class; it returns the node unchanged, so the model returns the
    map. *)
Definition propertyNodeVisitor (hostClass : ClassDeclaration)
    (options : PluginOptions) (sourceFile : SourceFile)
    (metadata : ClassMetadata) (node : ClassElement) : Exc ClassMetadata :=
  match node with
  | PropertyDeclaration node =>
      let hidePropertyDecorator :=
        getDecoratorOrUndefinedByNames [ApiHideProperty_name]
          (decorators node) in
      match hidePropertyDecorator with
      | Some _ => mret metadata
      | None =>
          let isPropertyStatic := existsb isStaticKeyword (modifiers node) in
          if isPropertyStatic then mret metadata
          else
            tryCatch
              (inspectPropertyDeclaration hostClass node options
                 (fileName sourceFile) sourceFile metadata)
              (mret metadata)
      end
  | _ => mret metadata
  end.

(** [ts.visitEachChild(node, propertyNodeVisitorFactory(metadata), ctx)] on
    the members of a class, in order. *)
Fixpoint visitEachChild (hostClass : ClassDeclaration)
    (options : PluginOptions) (sourceFile : SourceFile)
    (children : list ClassElement) (metadata : ClassMetadata)
  : Exc ClassMetadata :=
  match children with
  | [] => mret metadata
  | child :: rest =>
      metadata ← propertyNodeVisitor hostClass options sourceFile metadata child;
      visitEachChild hostClass options sourceFile rest metadata
  end.

(** [addMetadataFactory] *)
Definition addMetadataFactory (node : ClassDeclaration)
    (classMetadata : ClassMetadata) : ClassDeclaration :=
  {| className := className node;
     members := members node
                ++ [MetadataFactoryMethod METADATA_FACTORY_NAME classMetadata] |}.

(** The metadata map of one class scan, as [visitClassNode] builds it. *)
Definition scanClass (node : ClassDeclaration) (options : PluginOptions)
    (sourceFile : SourceFile) : Exc ClassMetadata :=
  let metadata : ClassMetadata := ∅ in
  visitEachChild node options sourceFile (members node) metadata.

(** [visitClassNode] on a class declaration. *)
Definition visitClassNode (node : ClassDeclaration) (options : PluginOptions)
    (sourceFile : SourceFile) : Exc ClassDeclaration :=
  metadata ← scanClass node options sourceFile;
  mret (addMetadataFactory node metadata).

End ClassScan.

(** ** Readings of the code used in the statements *)

(** The assignments an element of the collected array leaves in the record
    after [flatten] and [compact]. *)
Definition assignmentsOf (s : Slot) : list PropertyAssignment :=
  match s with
  | Falsy => []
  | One a => [a]
  | Many l => l
  end.

(** The assignments of a record for one key, in order. *)
Definition assignmentsFor (key : string)
    (properties : list PropertyAssignment) : list PropertyAssignment :=
  List.filter (fun item => String.eqb item.1 key) properties.

(** The keys a resolver contributes without looking for them among the
    explicit assignments: [nullable] rides on the check for [type], [isArray]
    on the check for [enum], and the validation extractor is not given the
    explicit assignments. *)
Definition uncheckedKeys : list string :=
  ["nullable"; "isArray"; "minimum"; "maximum"; "minLength"; "maxLength"].

(** The keys the record of a member of a type literal may hold after the
    explicit assignments. *)
Definition nestedKeys : list string :=
  ["required"; "type"; "nullable"; "default"; "enum"; "isArray"].

(** A record that starts with the explicit assignments and infers neither
    the key [K] nor any key outside [nestedKeys]. *)
Definition Suppressed (existing : list PropertyAssignment) (K : string)
    (record : Expression) : Prop :=
  exists inferred,
    record = ObjectLiteralExpression (existing ++ inferred)
    /\ (K ∉ keys inferred)
    /\ forall k, k ∈ keys inferred -> k ∈ nestedKeys.

(** What [createDecoratorObjectLiteralExpr] puts in the record after the
    explicit assignments, given what the resolvers that may raise returned:
    [required], the type resolver's assignments, the documentation
    enricher's, [default], the enum resolver's, and the validation bounds
    when [classValidatorShim] is set. *)
Definition inferredAssignments (node : Property)
    (existingProperties : list PropertyAssignment) (options : PluginOptions)
    (typeAssignments docAssignments : list PropertyAssignment)
    (enumAssignment : Slot) : list PropertyAssignment :=
  (if hasPropertyKey "required" existingProperties then []
   else [createPropertyAssignment "required"
           (createBooleanLiteral (negb (questionToken node)))])
  ++ typeAssignments
  ++ docAssignments
  ++ assignmentsOf (createDefaultPropertyAssignment node existingProperties)
  ++ assignmentsOf enumAssignment
  ++ (if classValidatorShim options
      then createValidationPropertyAssignments node else []).

Section Readings.
Context (U : Utils) (typeChecker : TypeChecker).

(** The callback of [Array.from(node.members || []).map(...)] in
    [createTypePropertyAssignments], applied to the members in order. *)
Fixpoint memberPropertyAssignments
    (existingProperties : list PropertyAssignment) (hostFilename : string)
    (ms : list Property) : Exc (list PropertyAssignment) :=
  match ms with
  | [] => mret []
  | member :: ms' =>
      literalExpr ←
        createDecoratorObjectLiteralExpr U typeChecker member
          existingProperties emptyOptions hostFilename None;
      memberName ← memberNameText member;
      rest ← memberPropertyAssignments existingProperties hostFilename ms';
      mret (createPropertyAssignment memberName literalExpr :: rest)
  end.

(** The enum resolver as the spec words it from its fourth step on, for a
    working type already chosen: unwrap an array wrapper (nothing is
    contributed when the helper returns nothing); when the unwrapped type
    is not an enum type or is a single enum member, look for the enum
    behind it (for a type that is not a member, through the second
    union detection) and unwrap again; contribute the enum's name, and
    [isArray] when the last unwrapping found an array. *)
Definition enumFromWorkingType (working : option TsType)
    (hostFilename : string) : Exc Slot :=
  unwrapped ← extractTypeArgumentIfArray U working;
  match unwrapped with
  | None => mret Falsy
  | Some (element, isArrayType) =>
      if isEnum U element && negb (isEnumMember element) then
        enumAssignmentOf U typeChecker element isArrayType hostFilename
      else
        found ← (if isEnumMember element then mret (Some element)
                 else isAutoGeneratedEnumUnion U element typeChecker);
        match found with
        | None => mret Falsy
        | Some found =>
            unwrapped ← extractTypeArgumentIfArray U (Some found);
            match unwrapped with
            | None => mret Falsy
            | Some (element, isArrayType) =>
                enumAssignmentOf U typeChecker element isArrayType
                  hostFilename
            end
        end
  end.

End Readings.

(** The records of the members nested in a record, at any depth: the value
    of a [type] assignment that is a thunk of an object literal lists one
    record per member, and each of these records may nest further ones. *)
Fixpoint nestedRecords (record : Expression) : list Expression :=
  match record with
  | ObjectLiteralExpression properties =>
      (fix inProperties (ps : list (string * Expression)) : list Expression :=
         match ps with
         | [] => []
         | (key, value) :: ps' =>
             (if String.eqb key "type" then
                match value with
                | ArrowFunction
                    (ParenthesizedExpression (ObjectLiteralExpression ms)) =>
                    (fix inMembers (ms : list (string * Expression))
                       : list Expression :=
                       match ms with
                       | [] => []
                       | (_, member) :: ms' =>
                           member :: nestedRecords member ++ inMembers ms'
                       end) ms
                | _ => []
                end
              else [])
             ++ inProperties ps'
         end) properties
  | _ => []
  end.

(** ** A small type system to run the visitor on

    A checker and helpers over a handful of type texts: [string] and [number]
    have the references [String] and [Number]; [Role] is an enum and [Role[]]
    its array; [T | undefined] is an auto-generated union whose reference is
    that of its last constituent and [T | null] has the type of [T]; enum
    types have no reference.  Asking for the type of the node [boom]
    throws. *)
Module Demo.

Definition ty (text : string) : TsType := mkTsType text None [].

Definition typeOfNode (node : TypeNode) : Exc (option TsType) :=
  match node with
  | OtherTypeNode "boom" => Throw
  | OtherTypeNode text => Return (Some (ty text))
  | NullKeyword => Return (Some (ty "null"))
  | UnionTypeNode [OtherTypeNode a; NullKeyword] => Return (Some (ty a))
  | UnionTypeNode [OtherTypeNode a; OtherTypeNode "undefined"] =>
      Return (Some (mkTsType (a +:+ " | undefined") None [ty "undefined"; ty a]))
  | UnionTypeNode _ => Return (Some (ty "union"))
  | TypeLiteralNode _ => Return (Some (ty "literal"))
  end.

Definition checker : TypeChecker :=
  {| getTypeAtLocation := fun location =>
       match location with
       | TypeNodeAt (Some node) => typeOfNode node
       | TypeNodeAt None => Return None
       | PropertyAt p =>
           match type p with
           | Some node => typeOfNode node
           | None => Return None
           end
       end |}.

Definition referenceOfText (text : string) : option string :=
  match text with
  | "string" => Some "String"
  | "number" => Some "Number"
  | _ => None
  end.

Definition utils : Utils :=
  {| getTypeReferenceAsString := fun t _ =>
       match t with
       | mkTsType _ _ [mkTsType "undefined" _ _; mkTsType a _ _] =>
           Return (referenceOfText a)
       | mkTsType text _ _ => Return (referenceOfText text)
       end;
     replaceImportPath := fun typeReference _ => typeReference;
     isAutoGeneratedTypeUnion := fun t =>
       match t with
       | mkTsType _ _ [mkTsType "undefined" _ _; _] => true
       | _ => false
       end;
     extractTypeArgumentIfArray := fun t =>
       match t with
       | None => Throw
       | Some (mkTsType "Role[]" _ _) => Return (Some (ty "Role", true))
       | Some t => Return (Some (t, false))
       end;
     isEnum := fun t =>
       match t with
       | mkTsType "Role" _ _ => true
       | _ => false
       end;
     isAutoGeneratedEnumUnion := fun _ _ => Return None;
     getText := fun t _ => match t with mkTsType text _ _ => Return text end;
     getMainCommentAndExamplesOfNode := fun p _ _ =>
       match initializer p with
       | Some (SourceExpression text) =>
           Return ("The " +:+ text, [JsPrimitive text])
       | _ => Return ("", [])
       end;
     createPrimitiveLiteral := SourceExpression |}.

Definition property (propertyName : string) (optional : bool)
    (node : option TypeNode) (init : option Expression) : Property :=
  {| decorators := [];
     modifiers := [];
     name := Some (mkPropertyName IdentifierName propertyName);
     questionToken := optional;
     type := node;
     initializer := init |}.

Definition options : PluginOptions :=
  {| introspectComments := false;
     classValidatorShim := false;
     dtoKeyOfComment := "description" |}.

Definition sourceFile : SourceFile := {| fileName := "cat.dto.ts" |}.

Definition optionsWithShim : PluginOptions :=
  {| introspectComments := false;
     classValidatorShim := true;
     dtoKeyOfComment := "description" |}.

(** [@Min(1) @Max(9) @MinLength(2) @MaxLength(4) roles: Role[] | null] *)
Definition boundedRoles : Property :=
  {| decorators :=
       [mkDecorator "Min" [SourceExpression "1"];
        mkDecorator "Max" [SourceExpression "9"];
        mkDecorator "MinLength" [SourceExpression "2"];
        mkDecorator "MaxLength" [SourceExpression "4"]];
     modifiers := [];
     name := Some (mkPropertyName IdentifierName "roles");
     questionToken := false;
     type := Some (UnionTypeNode [OtherTypeNode "Role[]"; NullKeyword]);
     initializer := None |}.

(** Explicit assignments for the six keys no resolver checks. *)
Definition explicitBounds : list PropertyAssignment :=
  [("nullable", FalseKeyword);
   ("isArray", FalseKeyword);
   ("minimum", SourceExpression "0");
   ("maximum", SourceExpression "100");
   ("minLength", SourceExpression "0");
   ("maxLength", SourceExpression "100")].

Definition optionsWithComments : PluginOptions :=
  {| introspectComments := true;
     classValidatorShim := false;
     dtoKeyOfComment := "description" |}.

(** Comments are introspected and the description is filed under the key
    [examples]. *)
Definition optionsDescribingAsExamples : PluginOptions :=
  {| introspectComments := true;
     classValidatorShim := false;
     dtoKeyOfComment := "examples" |}.

(** [lookup: { [key: string]: number }]: the member of the type literal is
    an index signature, which has no name. *)
Definition indexed : Property :=
  property "lookup" false
    (Some (TypeLiteralNode
             [{| decorators := [];
                 modifiers := [];
                 name := None;
                 questionToken := false;
                 type := Some (OtherTypeNode "number");
                 initializer := None |}]))
    None.

Definition cat : ClassDeclaration :=
  {| className := Some "Cat";
     members :=
       [PropertyDeclaration
          (property "name" true (Some (OtherTypeNode "string")) None);
        PropertyDeclaration indexed;
        PropertyDeclaration
          (property "age" false (Some (OtherTypeNode "number"))
             (Some (SourceExpression "3")))] |}.

(** [export default class { name?: string }] *)
Definition anonymous : ClassDeclaration :=
  {| className := None;
     members :=
       [PropertyDeclaration
          (property "name" true (Some (OtherTypeNode "string")) None)] |}.

(** [owner: { nick: string | null }] *)
Definition owner : Property :=
  property "owner" false
    (Some (TypeLiteralNode
             [property "nick" false
                (Some (UnionTypeNode [OtherTypeNode "string"; NullKeyword]))
                None]))
    None.

(** [owner: { nick?: string; address: { street: string } }] *)
Definition ownerWithAddress : Property :=
  property "owner" false
    (Some (TypeLiteralNode
             [property "nick" true (Some (OtherTypeNode "string")) None;
              property "address" false
                (Some (TypeLiteralNode
                         [property "street" false
                            (Some (OtherTypeNode "string")) None]))
                None]))
    None.

(** [roles?: Role[]] under strict null checks: the checker resolves the
    property to the auto-generated union [undefined | Role[]]. *)
Definition optionalRoles : Property :=
  property "roles" true
    (Some (UnionTypeNode [OtherTypeNode "Role[]"; OtherTypeNode "undefined"]))
    None.

(** Explicit assignments for keys the resolvers check. *)
Definition explicitTypeAndRequired : list PropertyAssignment :=
  [("type", ArrowFunction (Identifier "Date"));
   ("required", FalseKeyword)].

End Demo.

(** ** More of the visitor *)

(** [ts.isUnionTypeNode] *)
Definition isUnionTypeNode (node : TypeNode) : bool :=
  match node with
  | UnionTypeNode _ => true
  | _ => false
  end.

(** [ts.isTypeLiteralNode] *)
Definition isTypeLiteralNode (node : TypeNode) : bool :=
  match node with
  | TypeLiteralNode _ => true
  | _ => false
  end.

(** The children of a class the property visitor resolves: property
    declarations that carry no [ApiHideProperty] decorator and no [static]
    modifier. *)
Definition isResolved (child : ClassElement) : bool :=
  match child with
  | PropertyDeclaration node =>
      match getDecoratorOrUndefinedByNames [ApiHideProperty_name]
              (decorators node) with
      | Some _ => false
      | None => negb (existsb isStaticKeyword (modifiers node))
      end
  | _ => false
  end.

(** The text of a property's name, if it has a name. *)
Definition propertyNameText (node : Property) : option string :=
  nameText <$> name node.

(** The nodes of a source file, as the visitor [visitClassNode] of [visit]
    tells them apart: class declarations, and every other node with its
    children.  A class expression is not a class declaration. *)
Inductive FileNode : Type :=
| ClassDeclarationNode (node : ClassDeclaration)
| OtherNode (text : string) (children : list FileNode).

(** Induction over the nodes of a file that reaches the children. *)
Section FileNode_nested_ind.
Variable P : FileNode -> Prop.
Hypothesis P_class : forall node, P (ClassDeclarationNode node).
Hypothesis P_other : forall text children,
  Forall P children -> P (OtherNode text children).

Fixpoint FileNode_nested_ind (node : FileNode) : P node :=
  match node with
  | ClassDeclarationNode c => P_class c
  | OtherNode text children =>
      P_other text children
        ((fix go (l : list FileNode) : Forall P l :=
            match l with
            | [] => List.Forall_nil _
            | child :: l' =>
                List.Forall_cons _ child l' (FileNode_nested_ind child) (go l')
            end) children)
  end.
End FileNode_nested_ind.

(** Induction over example values that reaches the items of an array. *)
Section JsValue_nested_ind.
Variable P : JsValue -> Prop.
Hypothesis P_primitive : forall text, P (JsPrimitive text).
Hypothesis P_array : forall items, Forall P items -> P (JsArray items).

Fixpoint JsValue_nested_ind (value : JsValue) : P value :=
  match value with
  | JsPrimitive text => P_primitive text
  | JsArray items =>
      P_array items
        ((fix go (l : list JsValue) : Forall P l :=
            match l with
            | [] => List.Forall_nil _
            | item :: l' =>
                List.Forall_cons _ item l' (JsValue_nested_ind item) (go l')
            end) items)
  end.
End JsValue_nested_ind.

(** The class declarations of a file that the visitor reaches, in document
    order: it does not look for classes inside a class declaration. *)
Fixpoint classesOf (node : FileNode) : list ClassDeclaration :=
  match node with
  | ClassDeclarationNode c => [c]
  | OtherNode _ children =>
      (fix each (l : list FileNode) : list ClassDeclaration :=
         match l with
         | [] => []
         | child :: l' => classesOf child ++ each l'
         end) children
  end.

Section FileVisit.
Context (U : Utils) (typeChecker : TypeChecker).
Context (METADATA_FACTORY_NAME : string).

(** [visitClassNode] on any node of the file: a class declaration is
    scanned and given its factory; any other node has its children visited
    in order ([ts.visitEachChild(node, visitClassNode, ctx)]). *)
Fixpoint visitFileNode (options : PluginOptions) (sourceFile : SourceFile)
    (node : FileNode) {struct node} : Exc FileNode :=
  match node with
  | ClassDeclarationNode c =>
      updated ←
        visitClassNode U typeChecker METADATA_FACTORY_NAME c options
          sourceFile;
      mret (ClassDeclarationNode updated)
  | OtherNode text children =>
      children ←
        (fix each (l : list FileNode) : Exc (list FileNode) :=
           match l with
           | [] => mret []
           | child :: l' =>
               child ← visitFileNode options sourceFile child;
               rest ← each l';
               mret (child :: rest)
           end) children;
      mret (OtherNode text children)
  end.

(** [visitFileNode] on a list of children, in order. *)
Fixpoint visitFileNodes (options : PluginOptions) (sourceFile : SourceFile)
    (nodes : list FileNode) : Exc (list FileNode) :=
  match nodes with
  | [] => mret []
  | child :: rest =>
      child ← visitFileNode options sourceFile child;
      rest ← visitFileNodes options sourceFile rest;
      mret (child :: rest)
  end.

End FileVisit.

(** The class declarations of a list of nodes, in order. *)
Definition classesOfAll (nodes : list FileNode) : list ClassDeclaration :=
  nodes ≫= classesOf.

(** More inputs to run the visitor on. *)
Module Inputs.

(** A checker that throws at every location. *)
Definition throwingChecker : TypeChecker :=
  {| getTypeAtLocation := fun _ => Throw |}.

(** [@ApiHideProperty() secret: string] *)
Definition hidden : Property :=
  {| decorators := [mkDecorator "ApiHideProperty" []];
     modifiers := [];
     name := Some (mkPropertyName IdentifierName "secret");
     questionToken := false;
     type := Some (OtherTypeNode "string");
     initializer := None |}.

(** [static count: number] *)
Definition static : Property :=
  {| decorators := [];
     modifiers := [StaticKeyword];
     name := Some (mkPropertyName IdentifierName "count");
     questionToken := false;
     type := Some (OtherTypeNode "number");
     initializer := None |}.

(** [@Max(9) @Min(1) @Min(5) @MinLength() level: number] *)
Definition bounded : Property :=
  {| decorators :=
       [mkDecorator "Max" [SourceExpression "9"];
        mkDecorator "Min" [SourceExpression "1"];
        mkDecorator "Min" [SourceExpression "5"];
        mkDecorator "MinLength" []];
     modifiers := [];
     name := Some (mkPropertyName IdentifierName "level");
     questionToken := false;
     type := Some (OtherTypeNode "number");
     initializer := None |}.

(** [class Dog { secret; count; name?: string; name: number = 3 }], with the
    hidden and the static property first and the name declared twice. *)
Definition dog : ClassDeclaration :=
  {| className := Some "Dog";
     members :=
       [PropertyDeclaration hidden;
        PropertyDeclaration static;
        OtherClassElement "bark() {}";
        PropertyDeclaration
          (Demo.property "name" true (Some (OtherTypeNode "string")) None);
        PropertyDeclaration
          (Demo.property "name" false (Some (OtherTypeNode "number"))
             (Some (SourceExpression "3")))] |}.

(** A file with the classes [Cat] and [Dog], the second inside a
    namespace. *)
Definition file : FileNode :=
  OtherNode "file"
    [OtherNode "import" [];
     ClassDeclarationNode Demo.cat;
     OtherNode "namespace" [ClassDeclarationNode dog]].

(** A type system in which [Flag[]] is the array of the single enum member
    [Flag], and unwrapping [Flag] again finds no array. *)
Definition flag : TsType :=
  mkTsType "Flag" (Some (mkSymbol SymbolFlags_EnumMember)) [].

Definition utilsWithFlag : Utils :=
  {| getTypeReferenceAsString := getTypeReferenceAsString Demo.utils;
     replaceImportPath := replaceImportPath Demo.utils;
     isAutoGeneratedTypeUnion := isAutoGeneratedTypeUnion Demo.utils;
     extractTypeArgumentIfArray := fun t =>
       match t with
       | Some (mkTsType "Flag[]" _ _) => Return (Some (flag, true))
       | _ => extractTypeArgumentIfArray Demo.utils t
       end;
     isEnum := fun t =>
       match t with
       | mkTsType "Flag" _ _ => true
       | _ => isEnum Demo.utils t
       end;
     isAutoGeneratedEnumUnion := fun _ _ => Throw;
     getText := getText Demo.utils;
     getMainCommentAndExamplesOfNode :=
       getMainCommentAndExamplesOfNode Demo.utils;
     createPrimitiveLiteral := createPrimitiveLiteral Demo.utils |}.

End Inputs.

(** * Properties *)

(** The end-to-end records of a property [name?: string] and of a property
    [age: number = 3]. *)
Example resolve_optional_string :
  createDecoratorObjectLiteralExpr Demo.utils Demo.checker
    (Demo.property "name" true (Some (OtherTypeNode "string")) None)
    [] Demo.options "cat.dto.ts" (Some Demo.sourceFile)
  = Return (ObjectLiteralExpression
              [("required", FalseKeyword);
               ("type", ArrowFunction (Identifier "String"))]).
Proof. reflexivity. Qed.

Example resolve_number_with_default :
  createDecoratorObjectLiteralExpr Demo.utils Demo.checker
    (Demo.property "age" false (Some (OtherTypeNode "number"))
       (Some (SourceExpression "3")))
    [] Demo.options "cat.dto.ts" (Some Demo.sourceFile)
  = Return (ObjectLiteralExpression
              [("required", TrueKeyword);
               ("type", ArrowFunction (Identifier "Number"));
               ("default", SourceExpression "3")]).
Proof. reflexivity. Qed.

Example resolve_enum_array :
  createDecoratorObjectLiteralExpr Demo.utils Demo.checker
    (Demo.property "roles" false (Some (OtherTypeNode "Role[]")) None)
    [] Demo.options "cat.dto.ts" (Some Demo.sourceFile)
  = Return (ObjectLiteralExpression
              [("required", TrueKeyword);
               ("enum", Identifier "Role");
               ("isArray", Identifier "true")]).
Proof. reflexivity. Qed.

(** ** The exception monad *)

Lemma bind_Return {A B : Type} (f : A -> Exc B) (a : A) :
  (Return a ≫= f) = f a.
Proof. reflexivity. Qed.

Lemma bind_Throw {A B : Type} (f : A -> Exc B) :
  (Throw ≫= f) = Throw.
Proof. reflexivity. Qed.

Lemma bind_Return_inv {A B : Type} (m : Exc A) (f : A -> Exc B) (b : B) :
  (m ≫= f) = Return b -> exists a, m = Return a /\ f a = Return b.
Proof. destruct m as [|a]; [discriminate | intros H; exists a; auto]. Qed.

Lemma mret_Return_inv {A : Type} (a b : A) :
  mret (M := Exc) a = Return b -> a = b.
Proof. intros H; injection H; auto. Qed.

(** Membership in a list that is written out. *)
Ltac in_list := apply list_elem_of_In; simpl; tauto.

(** Inversion of a hypothesis [m ≫= f = Return b]. *)
Ltac exc_inv H :=
  let a := fresh "r" in
  let Hm := fresh "Hr" in
  apply bind_Return_inv in H; destruct H as (a & Hm & H).

(** ** The collected array *)

Lemma flatten_app (l1 l2 : list Slot) :
  flatten (l1 ++ l2) = flatten l1 ++ flatten l2.
Proof. unfold flatten. apply bind_app. Qed.

Lemma compact_app (l1 l2 : list (option PropertyAssignment)) :
  compact (l1 ++ l2) = compact l1 ++ compact l2.
Proof. unfold compact. apply omap_app. Qed.

Lemma compact_flatten_app (l1 l2 : list Slot) :
  compact (flatten (l1 ++ l2)) = compact (flatten l1) ++ compact (flatten l2).
Proof. rewrite flatten_app. apply compact_app. Qed.

Lemma compact_Some (l : list PropertyAssignment) : compact (Some <$> l) = l.
Proof.
  unfold compact. induction l as [|a l IH]; [reflexivity|].
  cbn. f_equal. exact IH.
Qed.

Lemma compact_flatten_spread (l : list PropertyAssignment) :
  compact (flatten (spread l)) = l.
Proof.
  unfold spread. induction l as [|a l IH]; [reflexivity|].
  change (compact (flatten ([One a] ++ (One <$> l))) = a :: l).
  rewrite compact_flatten_app, IH. reflexivity.
Qed.

Lemma compact_flatten_cons (s : Slot) (l : list Slot) :
  compact (flatten (s :: l)) = assignmentsOf s ++ compact (flatten l).
Proof.
  change (s :: l) with ([s] ++ l). rewrite compact_flatten_app. f_equal.
  destruct s as [|a|l']; simpl; try reflexivity.
  unfold flatten. simpl. rewrite app_nil_r. apply compact_Some.
Qed.

Lemma compact_flatten_nil : compact (flatten []) = [].
Proof. reflexivity. Qed.

(** ** Keys *)

Lemma keys_app (l1 l2 : list PropertyAssignment) :
  keys (l1 ++ l2) = keys l1 ++ keys l2.
Proof. unfold keys. apply fmap_app. Qed.

Lemma hasPropertyKey_elem (key : string) (l : list PropertyAssignment) :
  hasPropertyKey key l = true <-> key ∈ keys l.
Proof.
  unfold hasPropertyKey, keys. induction l as [|[k v] l IH]; simpl.
  - split; [discriminate | intros H; inversion H].
  - rewrite orb_true_iff, IH, elem_of_cons, String.eqb_eq. intuition.
Qed.

Lemma hasPropertyKey_not_elem (key : string) (l : list PropertyAssignment) :
  hasPropertyKey key l = false <-> key ∉ keys l.
Proof.
  rewrite <- hasPropertyKey_elem.
  destruct (hasPropertyKey key l); split; congruence.
Qed.

Lemma assignmentsFor_app (key : string) (l1 l2 : list PropertyAssignment) :
  assignmentsFor key (l1 ++ l2) = assignmentsFor key l1 ++ assignmentsFor key l2.
Proof. unfold assignmentsFor. apply List.filter_app. Qed.

Lemma assignmentsFor_absent (key : string) (l : list PropertyAssignment) :
  key ∉ keys l -> assignmentsFor key l = [].
Proof.
  unfold assignmentsFor, keys. induction l as [|[k v] l IH]; simpl; [reflexivity|].
  rewrite not_elem_of_cons. intros [Hne Hl].
  destruct (String.eqb_spec k key) as [->|_]; [contradiction | auto].
Qed.

(** ** The shape of a record *)

Section Shape.
Context (U : Utils) (typeChecker : TypeChecker).

(** The record is the explicit assignments followed by the inferred ones. *)
Lemma decoratorObjectLiteralExprOf_eq typeAssignments node existing options
    hostFilename sourceFile :
  decoratorObjectLiteralExprOf U typeChecker typeAssignments node existing
    options hostFilename sourceFile
  = (tys ← typeAssignments;
     docs ← createDescriptionAndExamplePropertyAssigments U typeChecker node
              existing options sourceFile;
     enum ← createEnumPropertyAssignment U typeChecker node existing
              hostFilename;
     mret (ObjectLiteralExpression
             (existing
              ++ inferredAssignments node existing options tys docs enum))).
Proof.
  unfold decoratorObjectLiteralExprOf, inferredAssignments.
  destruct typeAssignments as [|tys]; [reflexivity|]. rewrite !bind_Return.
  destruct (createDescriptionAndExamplePropertyAssigments _ _ _ _ _ _)
    as [|docs]; [reflexivity|]. rewrite !bind_Return.
  destruct (createEnumPropertyAssignment _ _ _ _ _) as [|enum];
    [reflexivity|]. rewrite !bind_Return.
  f_equal. f_equal.
  destruct (classValidatorShim options).
  all: rewrite !compact_flatten_app, !compact_flatten_spread.
  all: rewrite !compact_flatten_cons, compact_flatten_nil, ?app_nil_r.
  all: rewrite <- ?app_assoc.
  all: destruct (hasPropertyKey "required" existing); reflexivity.
Qed.

Lemma createDecoratorObjectLiteralExpr_Return node existing options
    hostFilename sourceFile record :
  createDecoratorObjectLiteralExpr U typeChecker node existing options
    hostFilename sourceFile = Return record ->
  exists tys docs enum,
    createTypePropertyAssignments U typeChecker (type node) existing
      hostFilename = Return tys
    /\ createDescriptionAndExamplePropertyAssigments U typeChecker node
         existing options sourceFile = Return docs
    /\ createEnumPropertyAssignment U typeChecker node existing hostFilename
       = Return enum
    /\ record = ObjectLiteralExpression
                  (existing
                   ++ inferredAssignments node existing options tys docs enum).
Proof.
  unfold createDecoratorObjectLiteralExpr.
  rewrite decoratorObjectLiteralExprOf_eq. intros H.
  exc_inv H. exc_inv H. exc_inv H. apply mret_Return_inv in H.
  eauto 10.
Qed.

(** *** The equations of the type resolver *)

(** A present key [type] stops the resolver at once. *)
Lemma createTypePropertyAssignments_explicit node existing hostFilename :
  hasPropertyKey "type" existing = true ->
  createTypePropertyAssignments U typeChecker node existing hostFilename
  = Return [].
Proof.
  intros H. destruct node as [[]|]; simpl; rewrite H; reflexivity.
Qed.

(** A type literal: one assignment per member, whose record is resolved
    with the same explicit assignments, the empty options and no source
    file. *)
Lemma createTypePropertyAssignments_literal ms existing hostFilename :
  hasPropertyKey "type" existing = false ->
  createTypePropertyAssignments U typeChecker (Some (TypeLiteralNode ms))
    existing hostFilename
  = (propertyAssignments ←
       memberPropertyAssignments U typeChecker existing hostFilename ms;
     mret [createPropertyAssignment "type"
             (ArrowFunction
                (ParenthesizedExpression
                   (ObjectLiteralExpression propertyAssignments)))]).
Proof.
  intros Hkey. simpl. rewrite Hkey. f_equal.
  induction ms as [|member ms IH]; [reflexivity|].
  simpl. rewrite <- IH. f_equal.
  unfold createDecoratorObjectLiteralExpr, createTypePropertyAssignments.
  destruct (type member); [reflexivity|]. rewrite Hkey. reflexivity.
Qed.

(** A union: when one constituent is left after the first null-like one is
    removed, its assignments, followed by [nullable] when a null-like
    constituent was found; otherwise the reference of the whole union. *)
Lemma createTypePropertyAssignments_union types existing hostFilename :
  hasPropertyKey "type" existing = false ->
  createTypePropertyAssignments U typeChecker (Some (UnionTypeNode types))
    existing hostFilename
  = match withoutFirstNullLike types with
    | [remaining] =>
        remainingTypesProperties ←
          createTypePropertyAssignments U typeChecker (Some remaining)
            existing hostFilename;
        mret (if bool_decide (is_Some (find isNullLike types))
              then remainingTypesProperties
                     ++ [createPropertyAssignment "nullable"
                           (createBooleanLiteral true)]
              else remainingTypesProperties)
    | _ => typeReferenceAssignments U typeChecker
             (Some (UnionTypeNode types)) hostFilename
    end.
Proof.
  intros Hkey. simpl. rewrite Hkey.
  match goal with
  | |- context [?f types false] => set (first := f)
  end.
  assert (Hdropped : forall ts,
             first ts true
             = match ts with
               | [] => mret []
               | t :: _ => typePropertyAssignmentsOf U typeChecker existing
                             hostFilename t
               end).
  { intros [|t ts]; reflexivity. }
  assert (Hfirst : forall ts,
             first ts false
             = match withoutFirstNullLike ts with
               | [] => mret []
               | t :: _ => typePropertyAssignmentsOf U typeChecker existing
                             hostFilename t
               end).
  { induction ts as [|t ts IH]; [reflexivity|].
    simpl. destruct (isNullLike t); simpl; [apply Hdropped | reflexivity]. }
  rewrite Hfirst.
  destruct (withoutFirstNullLike types) as [|t [|t' rest]]; reflexivity.
Qed.

(** Any other node: the reference of the node. *)
Lemma createTypePropertyAssignments_other node existing hostFilename :
  hasPropertyKey "type" existing = false ->
  match node with
  | Some (TypeLiteralNode _) | Some (UnionTypeNode _) => False
  | _ => True
  end ->
  createTypePropertyAssignments U typeChecker node existing hostFilename
  = typeReferenceAssignments U typeChecker node hostFilename.
Proof.
  intros Hkey Hnode.
  destruct node as [[]|]; simpl; try contradiction; rewrite Hkey; reflexivity.
Qed.

End Shape.

(** ** The keys each resolver may contribute *)

Section Keys.
Context (U : Utils) (typeChecker : TypeChecker).

Lemma withoutFirstNullLike_subset types t :
  t ∈ withoutFirstNullLike types -> t ∈ types.
Proof.
  induction types as [|t' types IH]; simpl; [auto|].
  destruct (isNullLike t'); rewrite ?elem_of_cons; intuition.
Qed.

Lemma typeReferenceAssignments_Return node hostFilename tys :
  typeReferenceAssignments U typeChecker node hostFilename = Return tys ->
  tys = [] \/ exists reference,
    tys = [createPropertyAssignment "type"
             (ArrowFunction (Identifier reference))].
Proof.
  unfold typeReferenceAssignments. intros H. exc_inv H.
  destruct r as [t|]; [|apply mret_Return_inv in H; auto].
  exc_inv H. destruct r as [reference|]; [|apply mret_Return_inv in H; auto].
  destruct (truthy reference); apply mret_Return_inv in H; eauto.
Qed.

(** The type resolver contributes the keys [type] and [nullable] only. *)
Lemma createTypePropertyAssignments_keys existing hostFilename node tys :
  createTypePropertyAssignments U typeChecker node existing hostFilename
  = Return tys ->
  forall k, k ∈ keys tys -> k = "type" \/ k = "nullable".
Proof.
  destruct (hasPropertyKey "type" existing) eqn:Hkey.
  { rewrite createTypePropertyAssignments_explicit by assumption.
    intros H k Hk. apply mret_Return_inv in H. subst tys. inversion Hk. }
  assert (Href : forall node tys,
    typeReferenceAssignments U typeChecker node hostFilename = Return tys ->
    forall k, k ∈ keys tys -> k = "type" \/ k = "nullable").
  { intros n l H k Hk.
    apply typeReferenceAssignments_Return in H as [->|[r ->]].
    - inversion Hk.
    - apply list_elem_of_singleton in Hk. auto. }
  destruct node as [node|].
  2:{ rewrite createTypePropertyAssignments_other by auto. apply Href. }
  revert tys.
  induction node as [ms _|types IH| |text] using TypeNode_nested_ind;
    intros tys.
  - rewrite createTypePropertyAssignments_literal by assumption.
    intros H k Hk. exc_inv H. apply mret_Return_inv in H. subst tys.
    apply list_elem_of_singleton in Hk. auto.
  - rewrite createTypePropertyAssignments_union by assumption.
    destruct (withoutFirstNullLike types) as [|t [|t' rest]] eqn:Hrem;
      try apply Href.
    intros H k Hk. exc_inv H. apply mret_Return_inv in H.
    assert (Ht : t ∈ types).
    { apply withoutFirstNullLike_subset. rewrite Hrem. left. }
    rewrite Forall_forall in IH. specialize (IH t Ht r Hr).
    subst tys. destruct (bool_decide _); [|auto].
    rewrite keys_app, elem_of_app in Hk. destruct Hk as [Hk|Hk]; [auto|].
    apply list_elem_of_singleton in Hk. auto.
  - rewrite createTypePropertyAssignments_other by auto. apply Href.
  - rewrite createTypePropertyAssignments_other by auto. apply Href.
Qed.

(** The enum resolver contributes the keys [enum] and [isArray] only, and
    nothing when [enum] is explicit. *)
Lemma enumAssignmentOf_keys t isArrayType hostFilename s :
  enumAssignmentOf U typeChecker t isArrayType hostFilename = Return s ->
  forall k, k ∈ keys (assignmentsOf s) -> k = "enum" \/ k = "isArray".
Proof.
  unfold enumAssignmentOf. intros H k Hk. exc_inv H.
  destruct isArrayType; apply mret_Return_inv in H; subst s; simpl in Hk.
  - rewrite !elem_of_cons in Hk. destruct Hk as [?|[?|Hk]]; auto.
    inversion Hk.
  - apply list_elem_of_singleton in Hk. auto.
Qed.

Lemma createEnumPropertyAssignment_explicit node existing hostFilename :
  hasPropertyKey "enum" existing = true ->
  createEnumPropertyAssignment U typeChecker node existing hostFilename
  = Return Falsy.
Proof. intros H. unfold createEnumPropertyAssignment. now rewrite H. Qed.

Lemma createEnumPropertyAssignment_keys node existing hostFilename s :
  createEnumPropertyAssignment U typeChecker node existing hostFilename
  = Return s ->
  forall k, k ∈ keys (assignmentsOf s) ->
    (k = "enum" \/ k = "isArray") /\ hasPropertyKey "enum" existing = false.
Proof.
  unfold createEnumPropertyAssignment.
  assert (Hnone : forall k, k ∈ keys (assignmentsOf Falsy) ->
            (k = "enum" \/ k = "isArray")
            /\ hasPropertyKey "enum" existing = false).
  { intros k Hk. inversion Hk. }
  destruct (hasPropertyKey "enum" existing) eqn:Hkey.
  { intros H. apply mret_Return_inv in H. subst s. exact Hnone. }
  intros H k Hk. split; [|reflexivity]. revert k Hk.
  assert (Hnone' : forall k, k ∈ keys (assignmentsOf Falsy) ->
            k = "enum" \/ k = "isArray").
  { intros k Hk. inversion Hk. }
  exc_inv H. destruct r as [t|]; [|apply mret_Return_inv in H; now subst s].
  exc_inv H.
  destruct r as [[t1 isArr1]|]; [|apply mret_Return_inv in H; now subst s].
  destruct (negb (isEnum U t1) || isEnumMember t1).
  - exc_inv H.
    destruct r as [t2|]; [|apply mret_Return_inv in H; now subst s].
    exc_inv H.
    destruct r as [[t3 isArr2]|]; [|apply mret_Return_inv in H; now subst s].
    eapply enumAssignmentOf_keys; eassumption.
  - eapply enumAssignmentOf_keys; eassumption.
Qed.

(** The default extractor contributes the key [default] only, and nothing
    when [default] is explicit. *)
Lemma createDefaultPropertyAssignment_keys (node : Property) existing k :
  k ∈ keys (assignmentsOf (createDefaultPropertyAssignment node existing)) ->
  k = "default" /\ hasPropertyKey "default" existing = false.
Proof.
  unfold createDefaultPropertyAssignment.
  destruct (hasPropertyKey "default" existing); [intros Hk; inversion Hk|].
  destruct (initializer node); [|intros Hk; inversion Hk].
  intros Hk. apply list_elem_of_singleton in Hk. auto.
Qed.

(** The documentation enricher contributes the configured description key
    when it is not explicit, and [example] or [examples] when neither is
    explicit. *)
Lemma createDescriptionAndExamplePropertyAssigments_keys node existing
    options sourceFile docs :
  createDescriptionAndExamplePropertyAssigments U typeChecker node existing
    options sourceFile = Return docs ->
  forall k, k ∈ keys docs ->
    (k = dtoKeyOfComment options /\ hasPropertyKey k existing = false)
    \/ ((k = "example" \/ k = "examples")
        /\ hasPropertyKey "example" existing = false
        /\ hasPropertyKey "examples" existing = false).
Proof.
  unfold createDescriptionAndExamplePropertyAssigments.
  destruct (introspectComments options), sourceFile as [sf|];
    try (intros H k Hk; apply mret_Return_inv in H; subst docs;
         now inversion Hk).
  intros H k Hk. exc_inv H. destruct r as [comments examples].
  apply mret_Return_inv in H. subst docs.
  destruct (hasPropertyKey (dtoKeyOfComment options) existing) eqn:Hdesc,
    (truthy comments),
    (hasPropertyKey "example" existing) eqn:Hex,
    (hasPropertyKey "examples" existing) eqn:Hexs,
    examples as [|e [|e' rest]];
    simpl in Hk;
    repeat (apply elem_of_cons in Hk as [->|Hk]);
    try (now inversion Hk); auto 10.
Qed.

(** The validation extractor contributes the four bound keys only. *)
Lemma addPropertyByValidationDecorator_keys decoratorName propertyKey decs
    assignments k :
  k ∈ keys (addPropertyByValidationDecorator decoratorName propertyKey decs
              assignments) ->
  k ∈ keys assignments \/ k = propertyKey.
Proof.
  unfold addPropertyByValidationDecorator.
  destruct (getDecoratorOrUndefinedByNames _ _); [|auto].
  destruct (head _); [|auto].
  rewrite keys_app, elem_of_app. intros [?|Hk]; [auto|].
  apply list_elem_of_singleton in Hk. auto.
Qed.

Lemma createValidationPropertyAssignments_keys (node : Property) k :
  k ∈ keys (createValidationPropertyAssignments node) ->
  k ∈ ["minimum"; "maximum"; "minLength"; "maxLength"].
Proof.
  unfold createValidationPropertyAssignments. intros Hk.
  repeat (apply addPropertyByValidationDecorator_keys in Hk as [Hk| ->];
          [|in_list]).
  inversion Hk.
Qed.

End Keys.

(** ** Explicit assignments and inferred ones *)

(** C1 (as amended).  The record starts with the explicit assignments, and
    for every explicit key other than [nullable], [isArray], [minimum],
    [maximum], [minLength] and [maxLength] no resolver contributes an
    assignment: the record's assignments for the key are the explicit
    ones. *)
Theorem explicit_keys_are_not_inferred (U : Utils) (typeChecker : TypeChecker)
    (node : Property) (existing : list PropertyAssignment)
    (options : PluginOptions) (hostFilename : string)
    (sourceFile : option SourceFile) (record : Expression) :
  createDecoratorObjectLiteralExpr U typeChecker node existing options
    hostFilename sourceFile = Return record ->
  exists inferred,
    record = ObjectLiteralExpression (existing ++ inferred)
    /\ forall K, K ∈ keys existing -> K ∉ uncheckedKeys ->
         (K ∉ keys inferred)
         /\ assignmentsFor K (existing ++ inferred) = assignmentsFor K existing.
Proof.
  intros H.
  apply createDecoratorObjectLiteralExpr_Return in H
    as (tys & docs & enum & Htys & Hdocs & Henum & ->).
  eexists; split; [reflexivity|]. intros K HK Hunchecked.
  assert (Hexplicit : hasPropertyKey K existing = true)
    by now apply hasPropertyKey_elem.
  assert (Habsent : K ∉ keys (inferredAssignments node existing options tys
                                docs enum)).
  { unfold inferredAssignments. rewrite !keys_app, !elem_of_app.
    intros [Hk|[Hk|[Hk|[Hk|[Hk|Hk]]]]].
    - destruct (hasPropertyKey "required" existing) eqn:Hreq;
        [inversion Hk|].
      apply list_elem_of_singleton in Hk. simpl in Hk. congruence.
    - destruct (hasPropertyKey "type" existing) eqn:Htype.
      + rewrite createTypePropertyAssignments_explicit in Htys by assumption.
        apply mret_Return_inv in Htys. subst tys. inversion Hk.
      + eapply createTypePropertyAssignments_keys in Hk as [->| ->];
          [| |eassumption]; [congruence|].
        apply Hunchecked. in_list.
    - eapply createDescriptionAndExamplePropertyAssigments_keys in Hk
        as [[_ Hk]|[[->| ->] [Hex Hexs]]]; [| | |eassumption]; congruence.
    - apply createDefaultPropertyAssignment_keys in Hk as [-> Hk]. congruence.
    - eapply createEnumPropertyAssignment_keys in Hk as [[->| ->] Hk];
        [| |eassumption]; [congruence|].
      apply Hunchecked. in_list.
    - destruct (classValidatorShim options); [|inversion Hk].
      apply createValidationPropertyAssignments_keys in Hk.
      apply Hunchecked. apply list_elem_of_In.
      apply list_elem_of_In in Hk. simpl in *. tauto. }
  split; [exact Habsent|].
  rewrite assignmentsFor_app, (assignmentsFor_absent _ _ Habsent).
  apply app_nil_r.
Qed.

(** An explicit [type] and [required] on [age: number = 3]: the record adds
    [default] only. *)
Lemma explicit_keys_are_not_inferred_witness :
  exists inferred,
    ObjectLiteralExpression
      (Demo.explicitTypeAndRequired ++ [("default", SourceExpression "3")])
    = ObjectLiteralExpression (Demo.explicitTypeAndRequired ++ inferred)
    /\ forall K, K ∈ keys Demo.explicitTypeAndRequired -> K ∉ uncheckedKeys ->
         (K ∉ keys inferred)
         /\ assignmentsFor K (Demo.explicitTypeAndRequired ++ inferred)
            = assignmentsFor K Demo.explicitTypeAndRequired.
Proof.
  apply (explicit_keys_are_not_inferred Demo.utils Demo.checker
           (Demo.property "age" false (Some (OtherTypeNode "number"))
              (Some (SourceExpression "3")))
           Demo.explicitTypeAndRequired Demo.options "cat.dto.ts"
           (Some Demo.sourceFile)).
  reflexivity.
Defined.

(** C1 (counterexample).  With [nullable], [isArray] and the four bounds
    explicit on [@Min(1) @Max(9) @MinLength(2) @MaxLength(4) roles: Role[] | null],
    the resolvers contribute each of the six keys again, after the explicit
    assignment. *)
Lemma explicit_keys_inferred_again :
  Forall (fun K => hasPropertyKey K Demo.explicitBounds = true)
    ["nullable"; "isArray"; "minimum"; "maximum"; "minLength"; "maxLength"]
  /\ createDecoratorObjectLiteralExpr Demo.utils Demo.checker
       Demo.boundedRoles Demo.explicitBounds Demo.optionsWithShim
       "cat.dto.ts" (Some Demo.sourceFile)
     = Return (ObjectLiteralExpression
                 (Demo.explicitBounds
                  ++ [("required", TrueKeyword);
                      ("nullable", TrueKeyword);
                      ("enum", Identifier "Role");
                      ("isArray", Identifier "true");
                      ("minimum", SourceExpression "1");
                      ("maximum", SourceExpression "9");
                      ("minLength", SourceExpression "2");
                      ("maxLength", SourceExpression "4")])).
Proof.
  split; [repeat constructor | reflexivity].
Qed.

(** ** Unions *)

(** C3.  For a union of one member [T] and one null-like member, in either
    order, and no explicit [type], the type resolver contributes what it
    contributes for [T], followed by [nullable = true]; when [T] is neither a
    type literal nor a union and the checker yields a reference for it, that
    is [type = () => reference] and [nullable = true]. *)
Theorem nullable_union_unwraps (U : Utils) (typeChecker : TypeChecker)
    (existing : list PropertyAssignment) (hostFilename : string)
    (T n : TypeNode) (types : list TypeNode) :
  hasPropertyKey "type" existing = false ->
  isNullLike T = false ->
  isNullLike n = true ->
  types = [T; n] \/ types = [n; T] ->
  createTypePropertyAssignments U typeChecker (Some (UnionTypeNode types))
    existing hostFilename
  = (contribution ←
       createTypePropertyAssignments U typeChecker (Some T) existing
         hostFilename;
     mret (contribution
             ++ [createPropertyAssignment "nullable" TrueKeyword]))
  /\ forall t reference,
       match T with
       | TypeLiteralNode _ | UnionTypeNode _ => False
       | _ => True
       end ->
       getTypeAtLocation typeChecker (TypeNodeAt (Some T)) = Return (Some t) ->
       getTypeReferenceAsString U t typeChecker = Return (Some reference) ->
       truthy reference = true ->
       createTypePropertyAssignments U typeChecker (Some (UnionTypeNode types))
         existing hostFilename
       = Return
           [createPropertyAssignment "type"
              (ArrowFunction
                 (Identifier (replaceImportPath U reference hostFilename)));
            createPropertyAssignment "nullable" TrueKeyword].
Proof.
  intros Hkey HT Hn Htypes.
  assert (Heq : createTypePropertyAssignments U typeChecker
                  (Some (UnionTypeNode types)) existing hostFilename
                = (contribution ←
                     createTypePropertyAssignments U typeChecker (Some T)
                       existing hostFilename;
                   mret (contribution
                           ++ [createPropertyAssignment "nullable"
                                 TrueKeyword]))).
  { rewrite createTypePropertyAssignments_union by assumption.
    destruct Htypes as [-> | ->]; simpl; rewrite ?HT, ?Hn; simpl;
      rewrite ?HT, ?Hn; reflexivity. }
  split; [exact Heq|].
  intros t reference Hleaf Ht Href Htruthy. rewrite Heq.
  rewrite createTypePropertyAssignments_other by assumption.
  unfold typeReferenceAssignments.
  rewrite Ht, bind_Return, Href, bind_Return, Htruthy. reflexivity.
Qed.

(** [string | null] resolves to [type = () => String] and [nullable = true]. *)
Lemma nullable_union_unwraps_witness :
  createTypePropertyAssignments Demo.utils Demo.checker
    (Some (UnionTypeNode [OtherTypeNode "string"; NullKeyword])) []
    "cat.dto.ts"
  = Return [("type", ArrowFunction (Identifier "String"));
            ("nullable", TrueKeyword)].
Proof.
  exact (proj2
           (nullable_union_unwraps Demo.utils Demo.checker [] "cat.dto.ts"
              (OtherTypeNode "string") NullKeyword
              [OtherTypeNode "string"; NullKeyword]
              eq_refl eq_refl eq_refl (or_introl eq_refl))
           (Demo.ty "string") "String" I eq_refl eq_refl eq_refl).
Defined.

(** C4 (as amended).  For a union that keeps two or more members once the
    first null-like one is removed, and no explicit [type], the type resolver
    asks the checker for the reference of the union as a whole: it
    contributes no [nullable], and it contributes [type] with that reference
    when the checker yields one and nothing when it yields none. *)
Theorem multi_member_union_is_referenced (U : Utils)
    (typeChecker : TypeChecker) (existing : list PropertyAssignment)
    (hostFilename : string) (types : list TypeNode) :
  hasPropertyKey "type" existing = false ->
  2 <= length (withoutFirstNullLike types) ->
  createTypePropertyAssignments U typeChecker (Some (UnionTypeNode types))
    existing hostFilename
  = typeReferenceAssignments U typeChecker (Some (UnionTypeNode types))
      hostFilename
  /\ (forall tys,
        createTypePropertyAssignments U typeChecker
          (Some (UnionTypeNode types)) existing hostFilename = Return tys ->
        "nullable" ∉ keys tys)
  /\ (forall t reference,
        getTypeAtLocation typeChecker (TypeNodeAt (Some (UnionTypeNode types)))
        = Return (Some t) ->
        getTypeReferenceAsString U t typeChecker = Return (Some reference) ->
        truthy reference = true ->
        createTypePropertyAssignments U typeChecker
          (Some (UnionTypeNode types)) existing hostFilename
        = Return
            [createPropertyAssignment "type"
               (ArrowFunction
                  (Identifier (replaceImportPath U reference hostFilename)))])
  /\ (forall t,
        getTypeAtLocation typeChecker (TypeNodeAt (Some (UnionTypeNode types)))
        = Return (Some t) ->
        getTypeReferenceAsString U t typeChecker = Return None ->
        createTypePropertyAssignments U typeChecker
          (Some (UnionTypeNode types)) existing hostFilename = Return []).
Proof.
  intros Hkey Hlen.
  assert (Heq : createTypePropertyAssignments U typeChecker
                  (Some (UnionTypeNode types)) existing hostFilename
                = typeReferenceAssignments U typeChecker
                    (Some (UnionTypeNode types)) hostFilename).
  { rewrite createTypePropertyAssignments_union by assumption.
    destruct (withoutFirstNullLike types) as [|t [|t' rest]];
      simpl in Hlen; try lia; reflexivity. }
  split; [exact Heq|]. rewrite Heq. repeat split.
  - intros tys H Hin.
    apply typeReferenceAssignments_Return in H as [->|[r ->]].
    + inversion Hin.
    + apply list_elem_of_singleton in Hin. discriminate.
  - intros t reference Ht Href Htruthy. unfold typeReferenceAssignments.
    rewrite Ht, bind_Return, Href, bind_Return, Htruthy. reflexivity.
  - intros t Ht Href. unfold typeReferenceAssignments.
    rewrite Ht, bind_Return, Href. reflexivity.
Qed.

(** [string | number | null]: the checker has no reference for the union and
    nothing is contributed. *)
Lemma multi_member_union_is_referenced_witness :
  createTypePropertyAssignments Demo.utils Demo.checker
    (Some (UnionTypeNode
             [OtherTypeNode "string"; OtherTypeNode "number"; NullKeyword]))
    [] "cat.dto.ts"
  = Return [].
Proof.
  refine (proj2 (proj2 (proj2
    (multi_member_union_is_referenced Demo.utils Demo.checker [] "cat.dto.ts"
       [OtherTypeNode "string"; OtherTypeNode "number"; NullKeyword]
       eq_refl _))) (Demo.ty "union") eq_refl eq_refl).
  simpl. lia.
Defined.

(** C4 (counterexample).  [string | undefined] keeps two members, neither
    null-like; the checker names the union [String] and the type resolver
    contributes [type]. *)
Lemma multi_member_union_gets_type :
  length (withoutFirstNullLike
            [OtherTypeNode "string"; OtherTypeNode "undefined"]) = 2
  /\ hasPropertyKey "type" [] = false
  /\ createTypePropertyAssignments Demo.utils Demo.checker
       (Some (UnionTypeNode
                [OtherTypeNode "string"; OtherTypeNode "undefined"]))
       [] "cat.dto.ts"
     = Return [("type", ArrowFunction (Identifier "String"))].
Proof. repeat split. Qed.

(** ** The enum resolver *)

(** With no explicit [enum] and a type for the property, the enum resolver is
    the spec's steps on the working type: the type itself, or the last
    constituent of an auto-generated union. *)
Lemma createEnumPropertyAssignment_working (U : Utils)
    (typeChecker : TypeChecker) (node : Property)
    (existing : list PropertyAssignment) (hostFilename : string) (t : TsType) :
  hasPropertyKey "enum" existing = false ->
  getTypeAtLocation typeChecker (PropertyAt node) = Return (Some t) ->
  createEnumPropertyAssignment U typeChecker node existing hostFilename
  = enumFromWorkingType U typeChecker
      (if isAutoGeneratedTypeUnion U t then last (typesOf t) else Some t)
      hostFilename.
Proof.
  intros Hkey Ht. unfold createEnumPropertyAssignment, enumFromWorkingType.
  rewrite Hkey, Ht, bind_Return.
  destruct (extractTypeArgumentIfArray U _) as [|[[element isArrayType]|]];
    try reflexivity.
  rewrite !bind_Return.
  destruct (isEnum U element), (isEnumMember element); reflexivity.
Qed.

(** C6.  When the checker's type for the property is an auto-generated
    union, the enum resolver runs its array unwrapping and enum detection on
    the last constituent of the union: its outcome is that of a property
    whose type is that constituent. *)
Theorem auto_generated_union_takes_last (U : Utils) (typeChecker : TypeChecker)
    (node : Property) (existing : list PropertyAssignment)
    (hostFilename : string) (union : TsType) :
  hasPropertyKey "enum" existing = false ->
  getTypeAtLocation typeChecker (PropertyAt node) = Return (Some union) ->
  isAutoGeneratedTypeUnion U union = true ->
  createEnumPropertyAssignment U typeChecker node existing hostFilename
  = enumFromWorkingType U typeChecker (last (typesOf union)) hostFilename
  /\ forall (other : Property) (constituent : TsType),
       last (typesOf union) = Some constituent ->
       getTypeAtLocation typeChecker (PropertyAt other)
       = Return (Some constituent) ->
       isAutoGeneratedTypeUnion U constituent = false ->
       createEnumPropertyAssignment U typeChecker node existing hostFilename
       = createEnumPropertyAssignment U typeChecker other existing
           hostFilename.
Proof.
  intros Hkey Ht Hunion. split.
  - rewrite (createEnumPropertyAssignment_working _ _ _ _ _ _ Hkey Ht).
    now rewrite Hunion.
  - intros other constituent Hlast Hother Hplain.
    rewrite (createEnumPropertyAssignment_working _ _ _ _ _ _ Hkey Ht).
    rewrite (createEnumPropertyAssignment_working _ _ _ _ _ _ Hkey Hother).
    now rewrite Hunion, Hplain, Hlast.
Qed.

(** [roles?: Role[]], resolved to [undefined | Role[]], is treated as
    [Role[]]. *)
Lemma auto_generated_union_takes_last_witness :
  createEnumPropertyAssignment Demo.utils Demo.checker Demo.optionalRoles []
    "cat.dto.ts"
  = enumFromWorkingType Demo.utils Demo.checker (Some (Demo.ty "Role[]"))
      "cat.dto.ts"
  /\ createEnumPropertyAssignment Demo.utils Demo.checker Demo.optionalRoles
       [] "cat.dto.ts"
     = createEnumPropertyAssignment Demo.utils Demo.checker
         (Demo.property "roles" false (Some (OtherTypeNode "Role[]")) None)
         [] "cat.dto.ts".
Proof.
  pose proof (auto_generated_union_takes_last Demo.utils Demo.checker
                Demo.optionalRoles [] "cat.dto.ts"
                (mkTsType "Role[] | undefined" None
                   [Demo.ty "undefined"; Demo.ty "Role[]"])
                eq_refl eq_refl eq_refl) as [Hlast Hsame].
  split; [exact Hlast|].
  exact (Hsame (Demo.property "roles" false (Some (OtherTypeNode "Role[]")) None)
           (Demo.ty "Role[]") eq_refl eq_refl eq_refl).
Defined.

(** X17.  Let the working type of the property (its type, or the
    last constituent of an auto-generated union) unwrap to an enum type [E]
    that is not a single enum member, and let [enum] not be explicit.  The
    enum resolver contributes [enum] with the normalized name of [E],
    followed by [isArray = true] when the unwrapping found an array and by
    nothing otherwise.  In the record, with no explicit [type] and a
    description key other than [type], the key [type] is present exactly
    when the type resolver contributes it; for a non-array enum type, with no
    explicit [isArray] and a description key other than [isArray], the key
    [isArray] is absent. *)
Theorem enum_array_resolution (U : Utils) (typeChecker : TypeChecker)
    (node : Property) (existing : list PropertyAssignment)
    (hostFilename : string) (t E : TsType) (isArrayType : bool)
    (text : string) :
  hasPropertyKey "enum" existing = false ->
  getTypeAtLocation typeChecker (PropertyAt node) = Return (Some t) ->
  extractTypeArgumentIfArray U
    (if isAutoGeneratedTypeUnion U t then last (typesOf t) else Some t)
  = Return (Some (E, isArrayType)) ->
  isEnum U E = true ->
  isEnumMember E = false ->
  getText U E typeChecker = Return text ->
  let enumProperty :=
    createPropertyAssignment "enum"
      (Identifier (replaceImportPath U text hostFilename)) in
  let contribution :=
    if isArrayType
    then Many [enumProperty;
               createPropertyAssignment "isArray" (Identifier "true")]
    else One enumProperty in
  createEnumPropertyAssignment U typeChecker node existing hostFilename
  = Return contribution
  /\ forall options sourceFile record,
       createDecoratorObjectLiteralExpr U typeChecker node existing options
         hostFilename sourceFile = Return record ->
       exists tys docs,
         createTypePropertyAssignments U typeChecker (type node) existing
           hostFilename = Return tys
         /\ record
            = ObjectLiteralExpression
                (existing
                 ++ inferredAssignments node existing options tys docs
                      contribution)
         /\ ("type" ∉ keys existing ->
             dtoKeyOfComment options <> "type" ->
             ("type" ∈ keys (existing
                             ++ inferredAssignments node existing options tys
                                  docs contribution)
              <-> "type" ∈ keys tys))
         /\ (isArrayType = false ->
             "isArray" ∉ keys existing ->
             dtoKeyOfComment options <> "isArray" ->
             "isArray" ∉ keys (existing
                               ++ inferredAssignments node existing options
                                    tys docs contribution)).
Proof.
  intros Hkey Ht Hunwrap HE Hmember Htext enumProperty contribution.
  assert (Henum : createEnumPropertyAssignment U typeChecker node existing
                    hostFilename = Return contribution).
  { rewrite (createEnumPropertyAssignment_working _ _ _ _ _ _ Hkey Ht).
    unfold enumFromWorkingType.
    rewrite Hunwrap, bind_Return, HE, Hmember. simpl.
    unfold enumAssignmentOf. rewrite Htext, bind_Return.
    subst contribution enumProperty. destruct isArrayType; reflexivity. }
  split; [exact Henum|].
  intros options sourceFile record H.
  apply createDecoratorObjectLiteralExpr_Return in H
    as (tys & docs & enum & Htys & Hdocs & Henum' & ->).
  rewrite Henum in Henum'. injection Henum' as <-.
  exists tys, docs. split; [exact Htys|]. split; [reflexivity|].
  assert (Hother : forall k,
    k ∈ keys (inferredAssignments node existing options tys docs contribution) ->
    k ∈ keys tys \/ k = dtoKeyOfComment options
    \/ (isArrayType = true /\ k = "isArray")
    \/ k ∈ ["required"; "example"; "examples"; "default"; "enum"; "minimum";
            "maximum"; "minLength"; "maxLength"]).
  { intros k. unfold inferredAssignments. rewrite !keys_app, !elem_of_app.
    intros [Hk|[Hk|[Hk|[Hk|[Hk|Hk]]]]].
    - destruct (hasPropertyKey "required" existing); [inversion Hk|].
      apply list_elem_of_singleton in Hk. simpl in Hk. subst k.
      do 3 right. in_list.
    - auto.
    - eapply createDescriptionAndExamplePropertyAssigments_keys in Hk
        as [[-> _]|[[->| ->] _]]; [| | |eassumption]; auto;
        do 3 right; in_list.
    - apply createDefaultPropertyAssignment_keys in Hk as [-> _].
      do 3 right. in_list.
    - subst contribution enumProperty. destruct isArrayType; simpl in Hk.
      + apply elem_of_cons in Hk as [->|Hk]; [do 3 right; in_list|].
        apply list_elem_of_singleton in Hk. auto.
      + apply list_elem_of_singleton in Hk. subst k. do 3 right. in_list.
    - destruct (classValidatorShim options); [|inversion Hk].
      apply createValidationPropertyAssignments_keys in Hk.
      do 3 right. apply list_elem_of_In. apply list_elem_of_In in Hk.
      simpl in *. tauto. }
  split.
  - intros Hexplicit Hdesc. rewrite keys_app, elem_of_app. split.
    + intros [Hk|Hk]; [contradiction|].
      apply Hother in Hk as [Hk|[Hk|[[_ Hk]|Hk]]]; [assumption|congruence| |].
      * discriminate.
      * apply list_elem_of_In in Hk. simpl in Hk.
        repeat (destruct Hk as [Hk|Hk]; [discriminate|]). contradiction.
    + intros Hk. right. unfold inferredAssignments.
      rewrite !keys_app, !elem_of_app. auto.
  - intros -> Hexplicit Hdesc. rewrite keys_app, elem_of_app.
    intros [Hk|Hk]; [contradiction|].
    apply Hother in Hk as [Hk|[Hk|[[Hk _]|Hk]]]; [|congruence|discriminate|].
    + eapply createTypePropertyAssignments_keys in Hk as [Hk|Hk];
        [| |eassumption]; discriminate.
    + apply list_elem_of_In in Hk. simpl in Hk.
      repeat (destruct Hk as [Hk|Hk]; [discriminate|]). contradiction.
Qed.

(** [roles: Role[]]: the enum resolver contributes [enum] and [isArray]. *)
Lemma enum_array_resolution_witness :
  createEnumPropertyAssignment Demo.utils Demo.checker
    (Demo.property "roles" false (Some (OtherTypeNode "Role[]")) None) []
    "cat.dto.ts"
  = Return (Many [("enum", Identifier "Role"); ("isArray", Identifier "true")]).
Proof.
  exact (proj1
           (enum_array_resolution Demo.utils Demo.checker
              (Demo.property "roles" false (Some (OtherTypeNode "Role[]")) None)
              [] "cat.dto.ts" (Demo.ty "Role[]") (Demo.ty "Role") true "Role"
              eq_refl eq_refl eq_refl eq_refl eq_refl eq_refl)).
Defined.

(** C5 (where the code departs from the claim).  Let the working type of
    the property (its type, or the last constituent of an auto-generated
    union) unwrap to an array of a single enum member, which is not an array
    itself, and let [enum] not be explicit.  The enum resolver contributes
    [enum] alone: on the path of enum members it unwraps the member again
    and overwrites the array flag of the first unwrapping, so [isArray] is
    not contributed for an array of a one-member enum. *)
Theorem enum_member_array_loses_isArray (U : Utils)
    (typeChecker : TypeChecker) (node : Property)
    (existing : list PropertyAssignment) (hostFilename : string)
    (t member : TsType) (text : string) :
  hasPropertyKey "enum" existing = false ->
  getTypeAtLocation typeChecker (PropertyAt node) = Return (Some t) ->
  extractTypeArgumentIfArray U
    (if isAutoGeneratedTypeUnion U t then last (typesOf t) else Some t)
  = Return (Some (member, true)) ->
  isEnumMember member = true ->
  extractTypeArgumentIfArray U (Some member) = Return (Some (member, false)) ->
  getText U member typeChecker = Return text ->
  createEnumPropertyAssignment U typeChecker node existing hostFilename
  = Return
      (One (createPropertyAssignment "enum"
              (Identifier (replaceImportPath U text hostFilename))))
  /\ createEnumPropertyAssignment U typeChecker node existing hostFilename
     <> Return
          (Many [createPropertyAssignment "enum"
                   (Identifier (replaceImportPath U text hostFilename));
                 createPropertyAssignment "isArray" (Identifier "true")]).
Proof.
  intros Hkey Ht Harray Hmember Hagain Htext.
  assert (Henum :
    createEnumPropertyAssignment U typeChecker node existing hostFilename
    = Return
        (One (createPropertyAssignment "enum"
                (Identifier (replaceImportPath U text hostFilename))))).
  { unfold createEnumPropertyAssignment.
    rewrite Hkey, Ht, bind_Return, Harray, bind_Return, Hmember.
    rewrite orb_true_r. simpl. rewrite Hagain, bind_Return.
    unfold enumAssignmentOf. now rewrite Htext. }
  split; [exact Henum|]. rewrite Henum. discriminate.
Qed.

(** [flags: Flag[]] where [Flag] is the single member of its enum, with no
    explicit assignment: the enum resolver contributes [enum] alone and the
    record has no [isArray]. *)
Lemma enum_member_array_loses_isArray_witness :
  (createEnumPropertyAssignment Inputs.utilsWithFlag Demo.checker
     (Demo.property "flags" false (Some (OtherTypeNode "Flag[]")) None) []
     "cat.dto.ts"
   = Return (One ("enum", Identifier "Flag"))
   /\ createEnumPropertyAssignment Inputs.utilsWithFlag Demo.checker
        (Demo.property "flags" false (Some (OtherTypeNode "Flag[]")) None) []
        "cat.dto.ts"
      <> Return (Many [("enum", Identifier "Flag");
                       ("isArray", Identifier "true")]))
  /\ createDecoratorObjectLiteralExpr Inputs.utilsWithFlag Demo.checker
       (Demo.property "flags" false (Some (OtherTypeNode "Flag[]")) None) []
       Demo.options "cat.dto.ts" (Some Demo.sourceFile)
     = Return (ObjectLiteralExpression
                 [("required", TrueKeyword); ("enum", Identifier "Flag")]).
Proof.
  split; [|reflexivity].
  exact (enum_member_array_loses_isArray Inputs.utilsWithFlag Demo.checker
           (Demo.property "flags" false (Some (OtherTypeNode "Flag[]")) None)
           [] "cat.dto.ts" (Demo.ty "Flag[]") Inputs.flag "Flag"
           eq_refl eq_refl eq_refl eq_refl eq_refl eq_refl).
Defined.

(** ** The documentation enricher *)

(** What the enricher returns: at most one description assignment, then at
    most one of [example] and [examples], by the number of examples. *)
Lemma createDescriptionAndExamplePropertyAssigments_enabled (U : Utils)
    (typeChecker : TypeChecker) (node : Property)
    (existing : list PropertyAssignment) (options : PluginOptions)
    (sf : SourceFile) (comments : string) (examples : list JsValue) :
  introspectComments options = true ->
  getMainCommentAndExamplesOfNode U node sf typeChecker
  = Return (comments, examples) ->
  createDescriptionAndExamplePropertyAssigments U typeChecker node existing
    options (Some sf)
  = Return
      ((if negb (hasPropertyKey (dtoKeyOfComment options) existing)
           && truthy comments
        then [createPropertyAssignment (dtoKeyOfComment options)
                (StringLiteral comments)]
        else [])
       ++ (if hasPropertyKey "example" existing
              || hasPropertyKey "examples" existing
           then []
           else match examples with
                | [] => []
                | [example] =>
                    [createPropertyAssignment "example"
                       (createLiteralFromAnyValue U example)]
                | _ =>
                    [createPropertyAssignment "examples"
                       (ArrayLiteralExpression
                          (map (createLiteralFromAnyValue U) examples))]
                end)).
Proof.
  intros Hon Hextract. unfold createDescriptionAndExamplePropertyAssigments.
  rewrite Hon, Hextract, bind_Return.
  destruct (negb (hasPropertyKey (dtoKeyOfComment options) existing)
            && truthy comments),
    (hasPropertyKey "example" existing || hasPropertyKey "examples" existing),
    examples as [|e [|e' rest]]; reflexivity.
Qed.

(** The enricher never returns both [example] and [examples], unless the
    description is filed under one of them. *)
Lemma createDescriptionAndExamplePropertyAssigments_exclusive (U : Utils)
    (typeChecker : TypeChecker) (node : Property)
    (existing : list PropertyAssignment) (options : PluginOptions)
    (sourceFile : option SourceFile) (docs : list PropertyAssignment) :
  dtoKeyOfComment options <> "example" ->
  dtoKeyOfComment options <> "examples" ->
  createDescriptionAndExamplePropertyAssigments U typeChecker node existing
    options sourceFile = Return docs ->
  ~ ("example" ∈ keys docs /\ "examples" ∈ keys docs).
Proof.
  intros Hne1 Hne2 H [Hex Hexs].
  unfold createDescriptionAndExamplePropertyAssigments in H.
  destruct (introspectComments options) eqn:Hon, sourceFile as [sf|];
    try (apply mret_Return_inv in H; subst docs; now inversion Hex).
  exc_inv H. destruct r as [comments examples].
  apply mret_Return_inv in H. subst docs.
  destruct (negb (hasPropertyKey (dtoKeyOfComment options) existing)
            && truthy comments),
    (negb (hasPropertyKey "example" existing
           || hasPropertyKey "examples" existing)),
    examples as [|e [|e' rest]];
    simpl in Hex, Hexs;
    repeat (apply elem_of_cons in Hex as [Hex|Hex]; [try congruence|]);
    try (now inversion Hex);
    repeat (apply elem_of_cons in Hexs as [Hexs|Hexs]; [try congruence|]);
    try (now inversion Hexs).
Qed.

(** C7 (as amended).  Let neither [example] nor [examples] be explicit and
    let the configured description key be neither of them.  When the
    enricher runs and the extractor returns the examples, it contributes no
    assignment for [example] or [examples] for zero examples, one assignment
    [example] with the value for one, and one assignment [examples] with the
    values in order for two or more; and no record has both keys. *)
Theorem example_cardinality (U : Utils) (typeChecker : TypeChecker)
    (node : Property) (existing : list PropertyAssignment)
    (options : PluginOptions) :
  hasPropertyKey "example" existing = false ->
  hasPropertyKey "examples" existing = false ->
  dtoKeyOfComment options <> "example" ->
  dtoKeyOfComment options <> "examples" ->
  (forall sf comments examples,
     introspectComments options = true ->
     getMainCommentAndExamplesOfNode U node sf typeChecker
     = Return (comments, examples) ->
     exists docs,
       createDescriptionAndExamplePropertyAssigments U typeChecker node
         existing options (Some sf) = Return docs
       /\ assignmentsFor "example" docs
          = match examples with
            | [example] =>
                [createPropertyAssignment "example"
                   (createLiteralFromAnyValue U example)]
            | _ => []
            end
       /\ assignmentsFor "examples" docs
          = match examples with
            | [] | [_] => []
            | _ =>
                [createPropertyAssignment "examples"
                   (ArrayLiteralExpression
                      (map (createLiteralFromAnyValue U) examples))]
            end)
  /\ (forall hostFilename sourceFile properties,
        createDecoratorObjectLiteralExpr U typeChecker node existing options
          hostFilename sourceFile
        = Return (ObjectLiteralExpression properties) ->
        ~ ("example" ∈ keys properties /\ "examples" ∈ keys properties)).
Proof.
  intros Hex Hexs Hne1 Hne2. split.
  - intros sf comments examples Hon Hextract. eexists. split.
    { apply createDescriptionAndExamplePropertyAssigments_enabled;
        eassumption. }
    rewrite Hex, Hexs. simpl.
    assert (Hd1 : assignmentsFor "example"
                    (if negb (hasPropertyKey (dtoKeyOfComment options) existing)
                        && truthy comments
                     then [createPropertyAssignment (dtoKeyOfComment options)
                             (StringLiteral comments)]
                     else []) = []).
    { destruct (_ && _); [|reflexivity]. simpl.
      destruct (String.eqb_spec (dtoKeyOfComment options) "example");
        [contradiction | reflexivity]. }
    assert (Hd2 : assignmentsFor "examples"
                    (if negb (hasPropertyKey (dtoKeyOfComment options) existing)
                        && truthy comments
                     then [createPropertyAssignment (dtoKeyOfComment options)
                             (StringLiteral comments)]
                     else []) = []).
    { destruct (_ && _); [|reflexivity]. simpl.
      destruct (String.eqb_spec (dtoKeyOfComment options) "examples");
        [contradiction | reflexivity]. }
    rewrite !assignmentsFor_app, Hd1, Hd2.
    destruct examples as [|e [|e' rest]]; split; reflexivity.
  - intros hostFilename sourceFile properties H [Hin1 Hin2].
    apply createDecoratorObjectLiteralExpr_Return in H
      as (tys & docs & enum & Htys & Hdocs & Henum & Hrecord).
    injection Hrecord as ->.
    assert (Honly : forall k, k = "example" \/ k = "examples" ->
      k ∈ keys (existing
                ++ inferredAssignments node existing options tys docs enum) ->
      k ∈ keys docs).
    { intros k Hk. unfold inferredAssignments.
      rewrite !keys_app, !elem_of_app.
      intros [Hin|[Hin|[Hin|[Hin|[Hin|[Hin|Hin]]]]]].
      - apply hasPropertyKey_elem in Hin. destruct Hk; congruence.
      - destruct (hasPropertyKey "required" existing); [inversion Hin|].
        apply list_elem_of_singleton in Hin. simpl in Hin.
        destruct Hk; congruence.
      - eapply createTypePropertyAssignments_keys in Hin; [|eassumption].
        destruct Hk, Hin; congruence.
      - assumption.
      - apply createDefaultPropertyAssignment_keys in Hin as [Hin _].
        destruct Hk; congruence.
      - eapply createEnumPropertyAssignment_keys in Hin as [Hin _];
          [|eassumption].
        destruct Hk, Hin; congruence.
      - destruct (classValidatorShim options); [|inversion Hin].
        apply createValidationPropertyAssignments_keys in Hin.
        apply list_elem_of_In in Hin. simpl in Hin.
        destruct Hk; subst k;
          repeat (destruct Hin as [Hin|Hin]; [discriminate|]);
          contradiction. }
    eapply createDescriptionAndExamplePropertyAssigments_exclusive;
      [exact Hne1 | exact Hne2 | exact Hdocs |].
    split; apply Honly; auto.
Qed.

(** [age: number = 3] with one documented example: the enricher contributes
    the description and [example]. *)
Lemma example_cardinality_witness :
  exists docs,
    createDescriptionAndExamplePropertyAssigments Demo.utils Demo.checker
      (Demo.property "age" false (Some (OtherTypeNode "number"))
         (Some (SourceExpression "3")))
      [] Demo.optionsWithComments (Some Demo.sourceFile) = Return docs
    /\ assignmentsFor "example" docs = [("example", SourceExpression "3")]
    /\ assignmentsFor "examples" docs = [].
Proof.
  refine (proj1
            (example_cardinality Demo.utils Demo.checker
               (Demo.property "age" false (Some (OtherTypeNode "number"))
                  (Some (SourceExpression "3")))
               [] Demo.optionsWithComments eq_refl eq_refl _ _)
            Demo.sourceFile "The 3" [JsPrimitive "3"] eq_refl eq_refl);
    discriminate.
Defined.

(** C7 (counterexample).  With the description filed under [examples] and
    one documented example, no explicit assignment: the enricher contributes
    both [examples] and [example], and the record has both. *)
Lemma example_and_examples_together :
  hasPropertyKey "example" [] = false
  /\ hasPropertyKey "examples" [] = false
  /\ createDescriptionAndExamplePropertyAssigments Demo.utils Demo.checker
       (Demo.property "age" false (Some (OtherTypeNode "number"))
          (Some (SourceExpression "3")))
       [] Demo.optionsDescribingAsExamples (Some Demo.sourceFile)
     = Return [("examples", StringLiteral "The 3");
               ("example", SourceExpression "3")]
  /\ createDecoratorObjectLiteralExpr Demo.utils Demo.checker
       (Demo.property "age" false (Some (OtherTypeNode "number"))
          (Some (SourceExpression "3")))
       [] Demo.optionsDescribingAsExamples "cat.dto.ts" (Some Demo.sourceFile)
     = Return (ObjectLiteralExpression
                 [("required", TrueKeyword);
                  ("type", ArrowFunction (Identifier "Number"));
                  ("examples", StringLiteral "The 3");
                  ("example", SourceExpression "3");
                  ("default", SourceExpression "3")]).
Proof. repeat split. Qed.

(** ** The default extractor *)

(** C8 (as amended).  The default extractor contributes nothing when
    [default] is explicit or the property has no initializer; otherwise it
    contributes [default] with the expression inside when the initializer is
    an [as] expression (one level is unwrapped), and with the initializer as
    written in every other case, an angle-bracket type assertion
    included. *)
Theorem default_extraction (node : Property)
    (existing : list PropertyAssignment) :
  (hasPropertyKey "default" existing = true \/ initializer node = None ->
   createDefaultPropertyAssignment node existing = Falsy)
  /\ (hasPropertyKey "default" existing = false ->
      forall expression typeText,
        initializer node = Some (AsExpression expression typeText) ->
        createDefaultPropertyAssignment node existing
        = One (createPropertyAssignment "default" expression))
  /\ (hasPropertyKey "default" existing = false ->
      forall init,
        initializer node = Some init ->
        (forall expression typeText,
           init <> AsExpression expression typeText) ->
        createDefaultPropertyAssignment node existing
        = One (createPropertyAssignment "default" init)).
Proof.
  unfold createDefaultPropertyAssignment. repeat split.
  - intros [-> | ->]; [reflexivity|].
    destruct (hasPropertyKey "default" existing); reflexivity.
  - intros -> expression typeText ->. reflexivity.
  - intros -> init -> Hplain.
    destruct init; try reflexivity. now destruct (Hplain init typeText).
Qed.

(** [age = 5 as number] resolves to [default = 5]; [age = 3] to
    [default = 3]. *)
Lemma default_extraction_witness :
  createDefaultPropertyAssignment
    (Demo.property "age" false None
       (Some (AsExpression (SourceExpression "5") "number"))) []
  = One ("default", SourceExpression "5")
  /\ createDefaultPropertyAssignment
       (Demo.property "age" false None (Some (SourceExpression "3"))) []
     = One ("default", SourceExpression "3").
Proof.
  split.
  - exact (proj1 (proj2
             (default_extraction
                (Demo.property "age" false None
                   (Some (AsExpression (SourceExpression "5") "number"))) []))
             eq_refl (SourceExpression "5") "number" eq_refl).
  - refine (proj2 (proj2
              (default_extraction
                 (Demo.property "age" false None (Some (SourceExpression "3")))
                 []))
              eq_refl (SourceExpression "3") eq_refl _).
    discriminate.
Defined.

(** C8 (counterexample).  [age = <number>5]: the initializer is a type
    assertion written with angle brackets, which is not an [as] expression;
    [default] is the whole assertion, not the [5] inside it. *)
Lemma angle_bracket_assertion_is_kept :
  createDefaultPropertyAssignment
    (Demo.property "age" false None
       (Some (TypeAssertionExpression "number" (SourceExpression "5")))) []
  = One ("default", TypeAssertionExpression "number" (SourceExpression "5"))
  /\ createDefaultPropertyAssignment
       (Demo.property "age" false None
          (Some (TypeAssertionExpression "number" (SourceExpression "5")))) []
     <> One ("default", SourceExpression "5").
Proof. split; [reflexivity | discriminate]. Qed.

(** ** The class scan *)

Section ScanProperties.
Context (U : Utils) (typeChecker : TypeChecker).

Lemma visitEachChild_cons hostClass options sourceFile child rest metadata :
  visitEachChild U typeChecker hostClass options sourceFile (child :: rest)
    metadata
  = (metadata ←
       propertyNodeVisitor U typeChecker hostClass options sourceFile
         metadata child;
     visitEachChild U typeChecker hostClass options sourceFile rest
       metadata).
Proof. reflexivity. Qed.

Lemma visitEachChild_app hostClass options sourceFile before after metadata :
  visitEachChild U typeChecker hostClass options sourceFile
    (before ++ after) metadata
  = (metadata ←
       visitEachChild U typeChecker hostClass options sourceFile before
         metadata;
     visitEachChild U typeChecker hostClass options sourceFile after
       metadata).
Proof.
  revert metadata. induction before as [|child before IH]; intros metadata.
  - reflexivity.
  - simpl.
    destruct (propertyNodeVisitor _ _ _ _ _ _ _) as [|metadata'];
      [reflexivity|].
    rewrite !bind_Return. apply IH.
Qed.

(** The visitor catches what the resolution of a property throws. *)
Lemma propertyNodeVisitor_returns hostClass options sourceFile metadata child :
  exists metadata',
    propertyNodeVisitor U typeChecker hostClass options sourceFile metadata
      child = Return metadata'.
Proof.
  destruct child as [node| |]; simpl; eauto.
  destruct (getDecoratorOrUndefinedByNames _ _); eauto.
  destruct (existsb _ _); eauto.
  destruct (inspectPropertyDeclaration _ _ _ _ _ _ _ _); simpl; eauto.
Qed.

Lemma visitEachChild_returns hostClass options sourceFile children metadata :
  exists metadata',
    visitEachChild U typeChecker hostClass options sourceFile children
      metadata = Return metadata'.
Proof.
  revert metadata. induction children as [|child children IH];
    intros metadata; simpl; [eauto|].
  destruct (propertyNodeVisitor_returns hostClass options sourceFile
              metadata child) as [metadata' ->].
  rewrite bind_Return. apply IH.
Qed.

End ScanProperties.

(** C2.  When the resolution of a property that is neither hidden nor static
    throws, the visitor hands the metadata map on unchanged, so the scan of
    the class is the scan without that property; and a scan always returns
    a map, whatever its properties throw. *)
Theorem failing_property_is_left_out (U : Utils) (typeChecker : TypeChecker)
    (METADATA_FACTORY_NAME : string) (hostClass : ClassDeclaration)
    (options : PluginOptions) (sourceFile : SourceFile) (node : Property) :
  getDecoratorOrUndefinedByNames [ApiHideProperty_name] (decorators node)
  = None ->
  existsb isStaticKeyword (modifiers node) = false ->
  createDecoratorObjectLiteralExpr U typeChecker node [] options
    (fileName sourceFile) (Some sourceFile) = Throw ->
  (forall metadata,
     propertyNodeVisitor U typeChecker hostClass options sourceFile metadata
       (PropertyDeclaration node) = Return metadata)
  /\ (forall before after metadata,
        visitEachChild U typeChecker hostClass options sourceFile
          (before ++ PropertyDeclaration node :: after) metadata
        = visitEachChild U typeChecker hostClass options sourceFile
            (before ++ after) metadata)
  /\ (forall (scanned : ClassDeclaration),
        (exists metadata,
           scanClass U typeChecker scanned options sourceFile = Return metadata)
        /\ exists updated,
             visitClassNode U typeChecker METADATA_FACTORY_NAME scanned options
               sourceFile = Return updated).
Proof.
  intros Hshown Hinstance Hthrows.
  assert (Hvisit : forall metadata,
    propertyNodeVisitor U typeChecker hostClass options sourceFile metadata
      (PropertyDeclaration node) = Return metadata).
  { intros metadata. simpl. rewrite Hshown, Hinstance.
    unfold inspectPropertyDeclaration. rewrite Hthrows. reflexivity. }
  split; [exact Hvisit|]. split.
  - intros before after metadata. rewrite !visitEachChild_app.
    destruct (visitEachChild U typeChecker hostClass options sourceFile before
                metadata) as [|metadata']; [reflexivity|].
    rewrite !bind_Return, visitEachChild_cons, Hvisit. reflexivity.
  - intros scanned. unfold visitClassNode, scanClass.
    destruct (visitEachChild_returns U typeChecker scanned options sourceFile
                (members scanned) ∅) as [metadata Hscan].
    rewrite Hscan. split; eexists; reflexivity.
Qed.

(** In [class Cat { name?: string; lookup: { [key: string]: number }; age = 3 }]
    the resolution of [lookup] throws on the unnamed member; the scan records
    [name] and [age]. *)
Lemma failing_property_is_left_out_witness :
  createDecoratorObjectLiteralExpr Demo.utils Demo.checker Demo.indexed []
    Demo.options (fileName Demo.sourceFile) (Some Demo.sourceFile) = Throw
  /\ (forall metadata,
        propertyNodeVisitor Demo.utils Demo.checker Demo.cat Demo.options
          Demo.sourceFile metadata (PropertyDeclaration Demo.indexed)
        = Return metadata)
  /\ scanClass Demo.utils Demo.checker Demo.cat Demo.options Demo.sourceFile
     = visitEachChild Demo.utils Demo.checker Demo.cat Demo.options
         Demo.sourceFile
         [PropertyDeclaration
            (Demo.property "name" true (Some (OtherTypeNode "string")) None);
          PropertyDeclaration
            (Demo.property "age" false (Some (OtherTypeNode "number"))
               (Some (SourceExpression "3")))]
         ∅.
Proof.
  pose proof (failing_property_is_left_out Demo.utils Demo.checker
                "_OPENAPI_METADATA_FACTORY" Demo.cat Demo.options
                Demo.sourceFile Demo.indexed eq_refl eq_refl eq_refl)
    as (Hvisit & Hscan & _).
  split; [reflexivity|]. split; [exact Hvisit|].
  exact (Hscan
           [PropertyDeclaration
              (Demo.property "name" true (Some (OtherTypeNode "string")) None)]
           [PropertyDeclaration
              (Demo.property "age" false (Some (OtherTypeNode "number"))
                 (Some (SourceExpression "3")))]
           ∅).
Defined.

(** The map the scan of [Cat] returns. *)
Example scan_cat :
  scanClass Demo.utils Demo.checker Demo.cat Demo.options Demo.sourceFile
  = Return
      (<["age" := ObjectLiteralExpression
                    [("required", TrueKeyword);
                     ("type", ArrowFunction (Identifier "Number"));
                     ("default", SourceExpression "3")]]>
         (<["name" := ObjectLiteralExpression
                        [("required", FalseKeyword);
                         ("type", ArrowFunction (Identifier "String"))]]> ∅)).
Proof. reflexivity. Qed.

(** C9.  For a class without a name, or whose name has no text,
    [addClassMetadata] leaves the metadata map as it is for every property,
    so the visitor hands the map on unchanged, the scan returns the empty
    map, and the factory [addMetadataFactory] appends lists no property. *)
Theorem unnamed_class_records_nothing (U : Utils) (typeChecker : TypeChecker)
    (METADATA_FACTORY_NAME : string) (hostClass : ClassDeclaration)
    (options : PluginOptions) (sourceFile : SourceFile) :
  className hostClass = None \/ className hostClass = Some "" ->
  (forall node objectLiteral metadata,
     addClassMetadata hostClass node objectLiteral sourceFile metadata
     = metadata)
  /\ (forall child metadata,
        propertyNodeVisitor U typeChecker hostClass options sourceFile
          metadata child = Return metadata)
  /\ (forall children metadata,
        visitEachChild U typeChecker hostClass options sourceFile children
          metadata = Return metadata)
  /\ scanClass U typeChecker hostClass options sourceFile = Return ∅
  /\ visitClassNode U typeChecker METADATA_FACTORY_NAME hostClass options
       sourceFile
     = Return {| className := className hostClass;
                 members := members hostClass
                            ++ [MetadataFactoryMethod METADATA_FACTORY_NAME ∅] |}.
Proof.
  intros Hname.
  assert (Hadd : forall node objectLiteral metadata,
    addClassMetadata hostClass node objectLiteral sourceFile metadata
    = metadata).
  { intros node objectLiteral metadata. unfold addClassMetadata.
    destruct Hname as [-> | ->]; reflexivity. }
  assert (Hvisit : forall child metadata,
    propertyNodeVisitor U typeChecker hostClass options sourceFile metadata
      child = Return metadata).
  { intros [node| |] metadata; simpl; try reflexivity.
    destruct (getDecoratorOrUndefinedByNames _ _); [reflexivity|].
    destruct (existsb _ _); [reflexivity|].
    unfold inspectPropertyDeclaration.
    destruct (createDecoratorObjectLiteralExpr _ _ _ _ _ _ _);
      [reflexivity|].
    rewrite bind_Return. simpl. now rewrite Hadd. }
  assert (Heach : forall children metadata,
    visitEachChild U typeChecker hostClass options sourceFile children metadata
    = Return metadata).
  { induction children as [|child children IH]; intros metadata;
      [reflexivity|].
    simpl. rewrite Hvisit, bind_Return. apply IH. }
  split; [exact Hadd|]. split; [exact Hvisit|]. split; [exact Heach|].
  split.
  - unfold scanClass. apply Heach.
  - unfold visitClassNode, scanClass. rewrite Heach. reflexivity.
Qed.

(** [export default class { name?: string }]: the scan records nothing. *)
Lemma unnamed_class_records_nothing_witness :
  scanClass Demo.utils Demo.checker Demo.anonymous Demo.options
    Demo.sourceFile = Return ∅.
Proof.
  exact (proj1 (proj2 (proj2 (proj2
           (unnamed_class_records_nothing Demo.utils Demo.checker
              "_OPENAPI_METADATA_FACTORY" Demo.anonymous Demo.options
              Demo.sourceFile (or_introl eq_refl)))))).
Defined.

(** ** The members of a type literal *)

Lemma nestedRecords_app (l1 l2 : list PropertyAssignment) :
  nestedRecords (ObjectLiteralExpression (l1 ++ l2))
  = nestedRecords (ObjectLiteralExpression l1)
    ++ nestedRecords (ObjectLiteralExpression l2).
Proof.
  induction l1 as [|[key value] l1 IH]; [reflexivity|].
  simpl in *. rewrite IH. now rewrite app_assoc.
Qed.

Lemma nestedRecords_no_type (l : list PropertyAssignment) :
  "type" ∉ keys l -> nestedRecords (ObjectLiteralExpression l) = [].
Proof.
  induction l as [|[key value] l IH]; [reflexivity|].
  unfold keys. simpl. rewrite not_elem_of_cons. intros [Hne Hl].
  destruct (String.eqb_spec key "type") as [->|_]; [congruence|].
  simpl in IH. now rewrite IH.
Qed.

Lemma nestedRecords_thunk (ms : list PropertyAssignment) :
  nestedRecords
    (ObjectLiteralExpression
       [createPropertyAssignment "type"
          (ArrowFunction
             (ParenthesizedExpression (ObjectLiteralExpression ms)))])
  = ms ≫= fun member => member.2 :: nestedRecords member.2.
Proof.
  simpl. rewrite app_nil_r.
  induction ms as [|[key value] ms IH]; [reflexivity|].
  simpl in *. now rewrite IH.
Qed.

Section Members.
Context (U : Utils) (typeChecker : TypeChecker).
Context (existing : list PropertyAssignment) (hostFilename : string).

(** Where each key of the inferred assignments comes from. *)
Lemma inferredAssignments_keys node options sourceFile tys docs enum k :
  createTypePropertyAssignments U typeChecker (type node) existing
    hostFilename = Return tys ->
  createDescriptionAndExamplePropertyAssigments U typeChecker node existing
    options sourceFile = Return docs ->
  createEnumPropertyAssignment U typeChecker node existing hostFilename
  = Return enum ->
  k ∈ keys (inferredAssignments node existing options tys docs enum) ->
  hasPropertyKey k existing = false
  \/ k = "nullable" \/ k = "isArray"
  \/ (classValidatorShim options = true
      /\ k ∈ ["minimum"; "maximum"; "minLength"; "maxLength"]).
Proof.
  intros Htys Hdocs Henum. unfold inferredAssignments.
  rewrite !keys_app, !elem_of_app. intros [Hk|[Hk|[Hk|[Hk|[Hk|Hk]]]]].
  - destruct (hasPropertyKey "required" existing) eqn:Hreq;
      [inversion Hk|].
    apply list_elem_of_singleton in Hk. simpl in Hk. subst k. auto.
  - destruct (hasPropertyKey "type" existing) eqn:Htype.
    + rewrite createTypePropertyAssignments_explicit in Htys by assumption.
      apply mret_Return_inv in Htys. subst tys. inversion Hk.
    + eapply createTypePropertyAssignments_keys in Hk as [->| ->];
        [| |eassumption]; auto.
  - eapply createDescriptionAndExamplePropertyAssigments_keys in Hk
      as [[_ Hk]|[[->| ->] [Hex Hexs]]]; [| | |eassumption]; auto.
  - apply createDefaultPropertyAssignment_keys in Hk as [-> Hk]. auto.
  - eapply createEnumPropertyAssignment_keys in Hk as [[->| ->] Hk];
      [| |eassumption]; auto.
  - destruct (classValidatorShim options); [|inversion Hk].
    apply createValidationPropertyAssignments_keys in Hk. auto.
Qed.

(** The record of a member: the explicit assignments, [required], the type
    resolver's assignments, [default] and the enum resolver's; the
    documentation enricher and the validation extractor contribute
    nothing. *)
Lemma member_record member :
  createDecoratorObjectLiteralExpr U typeChecker member existing
    emptyOptions hostFilename None
  = (tys ←
       createTypePropertyAssignments U typeChecker (type member) existing
         hostFilename;
     enum ←
       createEnumPropertyAssignment U typeChecker member existing
         hostFilename;
     mret (ObjectLiteralExpression
             (existing
              ++ (if hasPropertyKey "required" existing then []
                  else [createPropertyAssignment "required"
                          (createBooleanLiteral
                             (negb (questionToken member)))])
              ++ tys
              ++ assignmentsOf
                   (createDefaultPropertyAssignment member existing)
              ++ assignmentsOf enum))).
Proof.
  unfold createDecoratorObjectLiteralExpr.
  rewrite decoratorObjectLiteralExprOf_eq.
  destruct (createTypePropertyAssignments _ _ _ _ _) as [|tys];
    [reflexivity|].
  rewrite !bind_Return.
  change (createDescriptionAndExamplePropertyAssigments U typeChecker
            member existing emptyOptions None) with (Return (@nil PropertyAssignment)).
  rewrite bind_Return.
  destruct (createEnumPropertyAssignment _ _ _ _ _) as [|enum];
    [reflexivity|].
  rewrite !bind_Return. unfold inferredAssignments. simpl.
  now rewrite app_nil_r.
Qed.

(** Each assignment of the thunk of a type literal holds the record of one
    of the members, resolved as [member_record] says. *)
Lemma memberPropertyAssignments_Return ms pas :
  memberPropertyAssignments U typeChecker existing hostFilename ms
  = Return pas ->
  Forall (fun pa : PropertyAssignment =>
            exists member,
              member ∈ ms
              /\ createDecoratorObjectLiteralExpr U typeChecker member
                   existing emptyOptions hostFilename None = Return pa.2)
    pas.
Proof.
  revert pas. induction ms as [|member ms IH]; intros pas H.
  - apply mret_Return_inv in H. subst pas. constructor.
  - simpl in H. exc_inv H. exc_inv H. exc_inv H.
    apply mret_Return_inv in H. subst pas. constructor.
    + exists member. split; [left | assumption].
    + eapply Forall_impl; [apply IH; eassumption|].
      intros pa (m & Hm & Hpa). exists m. split; [now right | assumption].
Qed.

Context (K : string).
Hypothesis K_explicit : K ∈ keys existing.
Hypothesis K_not_nullable : K <> "nullable".
Hypothesis K_not_isArray : K <> "isArray".
Hypothesis no_explicit_type : hasPropertyKey "type" existing = false.

Lemma member_record_Suppressed member record :
  createDecoratorObjectLiteralExpr U typeChecker member existing
    emptyOptions hostFilename None = Return record ->
  Suppressed existing K record.
Proof.
  intros H.
  apply createDecoratorObjectLiteralExpr_Return in H
    as (tys & docs & enum & Htys & Hdocs & Henum & ->).
  exists (inferredAssignments member existing emptyOptions tys docs enum).
  split; [reflexivity|].
  assert (Hexplicit : hasPropertyKey K existing = true)
    by now apply hasPropertyKey_elem.
  split.
  - intros Hk.
    apply (inferredAssignments_keys member emptyOptions None tys docs enum)
      in Hk as [Hk|[Hk|[Hk|[Hk _]]]]; try assumption;
      try congruence; discriminate.
  - intros k Hk. unfold inferredAssignments in Hk.
    change (createDescriptionAndExamplePropertyAssigments U typeChecker
              member existing emptyOptions None)
      with (Return (@nil PropertyAssignment)) in Hdocs.
    injection Hdocs as <-. simpl in Hk.
    rewrite !keys_app, !elem_of_app in Hk.
    destruct Hk as [Hk|[Hk|[Hk|[Hk|Hk]]]].
    + destruct (hasPropertyKey "required" existing); [inversion Hk|].
      apply list_elem_of_singleton in Hk. simpl in Hk. subst k. in_list.
    + eapply createTypePropertyAssignments_keys in Hk as [->| ->];
        [| |eassumption]; in_list.
    + apply createDefaultPropertyAssignment_keys in Hk as [-> _]. in_list.
    + eapply createEnumPropertyAssignment_keys in Hk as [[->| ->] _];
        [| |eassumption]; in_list.
    + inversion Hk.
Qed.

(** The records nested in a record are those nested in the type
    resolver's assignments. *)
Lemma nestedRecords_record node options sourceFile record :
  createDecoratorObjectLiteralExpr U typeChecker node existing options
    hostFilename sourceFile = Return record ->
  exists tys,
    createTypePropertyAssignments U typeChecker (type node) existing
      hostFilename = Return tys
    /\ nestedRecords record = nestedRecords (ObjectLiteralExpression tys).
Proof.
  intros H.
  apply createDecoratorObjectLiteralExpr_Return in H
    as (tys & docs & enum & Htys & Hdocs & Henum & ->).
  exists tys. split; [assumption|].
  unfold inferredAssignments. rewrite !nestedRecords_app.
  rewrite (nestedRecords_no_type existing)
    by now apply hasPropertyKey_not_elem.
  assert (Hdocs' : nestedRecords (ObjectLiteralExpression docs) = []).
  { unfold createDescriptionAndExamplePropertyAssigments in Hdocs.
    destruct (introspectComments options), sourceFile as [sf|];
      try (apply mret_Return_inv in Hdocs; now subst docs).
    exc_inv Hdocs. destruct r as [comments examples].
    apply mret_Return_inv in Hdocs. subst docs.
    destruct (negb (hasPropertyKey (dtoKeyOfComment options) existing)
              && truthy comments),
      (negb (hasPropertyKey "example" existing
             || hasPropertyKey "examples" existing)),
      examples as [|e [|e' rest]]; simpl;
      try reflexivity;
      destruct (String.eqb (dtoKeyOfComment options) "type");
      reflexivity. }
  rewrite Hdocs'.
  rewrite (nestedRecords_no_type
             (if hasPropertyKey "required" existing then [] else _)).
  2:{ destruct (hasPropertyKey "required" existing); [inversion 1|].
      intros Hk. apply list_elem_of_singleton in Hk. discriminate. }
  rewrite (nestedRecords_no_type (assignmentsOf (createDefaultPropertyAssignment _ _))).
  2:{ intros Hk. apply createDefaultPropertyAssignment_keys in Hk as [Hk _].
      discriminate. }
  rewrite (nestedRecords_no_type (assignmentsOf enum)).
  2:{ intros Hk.
      eapply createEnumPropertyAssignment_keys in Hk as [[Hk|Hk] _];
        [| |eassumption]; discriminate. }
  rewrite (nestedRecords_no_type (if classValidatorShim options then _ else _)).
  2:{ destruct (classValidatorShim options); [|inversion 1].
      intros Hk. apply createValidationPropertyAssignments_keys in Hk.
      apply list_elem_of_In in Hk. simpl in Hk.
      repeat (destruct Hk as [Hk|Hk]; [discriminate|]). contradiction. }
  simpl. now rewrite !app_nil_r.
Qed.

(** Every record nested in the type resolver's assignments, at any depth,
    is [Suppressed]. *)
Lemma createTypePropertyAssignments_nested node tys :
  createTypePropertyAssignments U typeChecker node existing hostFilename
  = Return tys ->
  Forall (Suppressed existing K)
    (nestedRecords (ObjectLiteralExpression tys)).
Proof.
  assert (Href : forall node tys,
    typeReferenceAssignments U typeChecker node hostFilename = Return tys ->
    Forall (Suppressed existing K)
    (nestedRecords (ObjectLiteralExpression tys))).
  { intros n l H.
    apply typeReferenceAssignments_Return in H as [->|[r ->]]; constructor. }
  destruct node as [node|].
  2:{ rewrite createTypePropertyAssignments_other by auto. apply Href. }
  revert tys.
  induction node as [ms IH|types IH| |text] using TypeNode_nested_ind;
    intros tys.
  - rewrite createTypePropertyAssignments_literal by assumption.
    intros H. exc_inv H. apply mret_Return_inv in H. subst tys.
    rewrite nestedRecords_thunk.
    apply memberPropertyAssignments_Return in Hr.
    induction Hr as [|pa pas (member & Hmember & Hrecord) _ IHpas];
      [constructor|].
    change ((pa :: pas) ≫= fun m => m.2 :: nestedRecords m.2)
      with ((pa.2 :: nestedRecords pa.2)
            ++ (pas ≫= fun m => m.2 :: nestedRecords m.2)).
    apply Forall_app. split; [|exact IHpas]. constructor.
    + eapply member_record_Suppressed; eassumption.
    + destruct (nestedRecords_record _ _ _ _ Hrecord) as (tys & Htys & ->).
      rewrite Forall_forall in IH. specialize (IH member Hmember).
      unfold onTypeOf in IH. destruct (type member) as [t|].
      * apply IH. assumption.
      * rewrite createTypePropertyAssignments_other in Htys by auto.
        eapply Href; eassumption.
  - rewrite createTypePropertyAssignments_union by assumption.
    destruct (withoutFirstNullLike types) as [|t [|t' rest]] eqn:Hrem;
      try apply Href.
    intros H. exc_inv H. apply mret_Return_inv in H.
    assert (Ht : t ∈ types).
    { apply withoutFirstNullLike_subset. rewrite Hrem. left. }
    rewrite Forall_forall in IH. specialize (IH t Ht r Hr).
    subst tys. destruct (bool_decide _); [|assumption].
    rewrite nestedRecords_app. apply Forall_app. split; [assumption|].
    constructor.
  - rewrite createTypePropertyAssignments_other by auto. apply Href.
  - rewrite createTypePropertyAssignments_other by auto. apply Href.
Qed.

End Members.

(** C10 (as amended).  With no explicit [type], the type resolver turns a
    type literal into a thunk of one assignment per member, each member
    resolved with the outer property's explicit assignments, the empty
    options and no source file.  The record of a member is the explicit
    assignments followed by [required], the type resolver's assignments,
    [default] and the enum resolver's: the documentation enricher and the
    validation extractor contribute nothing.  In every record nested at any
    depth, a key that is explicit on the outer property, other than
    [nullable] and [isArray], is not inferred, and the inferred keys are
    among [required], [type], [nullable], [default], [enum], [isArray]. *)
Theorem nested_members_share_explicit_keys (U : Utils)
    (typeChecker : TypeChecker) (existing : list PropertyAssignment)
    (hostFilename : string) :
  hasPropertyKey "type" existing = false ->
  (forall ms,
     createTypePropertyAssignments U typeChecker (Some (TypeLiteralNode ms))
       existing hostFilename
     = (propertyAssignments ←
          memberPropertyAssignments U typeChecker existing hostFilename ms;
        mret [createPropertyAssignment "type"
                (ArrowFunction
                   (ParenthesizedExpression
                      (ObjectLiteralExpression propertyAssignments)))]))
  /\ (forall member,
        createDecoratorObjectLiteralExpr U typeChecker member existing
          emptyOptions hostFilename None
        = (tys ←
             createTypePropertyAssignments U typeChecker (type member)
               existing hostFilename;
           enum ←
             createEnumPropertyAssignment U typeChecker member existing
               hostFilename;
           mret (ObjectLiteralExpression
                   (existing
                    ++ (if hasPropertyKey "required" existing then []
                        else [createPropertyAssignment "required"
                                (createBooleanLiteral
                                   (negb (questionToken member)))])
                    ++ tys
                    ++ assignmentsOf
                         (createDefaultPropertyAssignment member existing)
                    ++ assignmentsOf enum))))
  /\ (forall node options sourceFile record K,
        createDecoratorObjectLiteralExpr U typeChecker node existing options
          hostFilename sourceFile = Return record ->
        K ∈ keys existing ->
        K <> "nullable" ->
        K <> "isArray" ->
        Forall (Suppressed existing K) (nestedRecords record)).
Proof.
  intros Htype. split; [|split].
  - intros ms. now apply createTypePropertyAssignments_literal.
  - intros member. apply member_record.
  - intros node options sourceFile record K Hrecord HK Hnullable HisArray.
    destruct (nestedRecords_record U typeChecker existing hostFilename Htype
                node options sourceFile record Hrecord) as (tys & Htys & ->).
    eapply createTypePropertyAssignments_nested; eassumption.
Qed.

(** With [required] explicit on
    [owner: { nick?: string; address: { street: string } }], none of the
    three nested records infers [required]. *)
Lemma nested_members_share_explicit_keys_witness :
  exists record,
    createDecoratorObjectLiteralExpr Demo.utils Demo.checker
      Demo.ownerWithAddress [("required", FalseKeyword)] Demo.optionsWithShim
      "cat.dto.ts" (Some Demo.sourceFile) = Return record
    /\ length (nestedRecords record) = 3
    /\ Forall (Suppressed [("required", FalseKeyword)] "required")
         (nestedRecords record).
Proof.
  eexists. split; [reflexivity|]. split; [reflexivity|].
  refine (proj2 (proj2
            (nested_members_share_explicit_keys Demo.utils Demo.checker
               [("required", FalseKeyword)] "cat.dto.ts" eq_refl))
            Demo.ownerWithAddress Demo.optionsWithShim (Some Demo.sourceFile)
            _ "required" eq_refl _ _ _).
  - in_list.
  - discriminate.
  - discriminate.
Defined.

(** C10 (counterexample).  With [nullable] explicit on
    [owner: { nick: string | null }], the record of the member [nick] holds
    the explicit [nullable] and, after it, an inferred one. *)
Lemma nested_member_infers_explicit_key :
  hasPropertyKey "nullable" [("nullable", FalseKeyword)] = true
  /\ createTypePropertyAssignments Demo.utils Demo.checker (type Demo.owner)
       [("nullable", FalseKeyword)] "cat.dto.ts"
     = Return
         [("type",
           ArrowFunction
             (ParenthesizedExpression
                (ObjectLiteralExpression
                   [("nick",
                     ObjectLiteralExpression
                       [("nullable", FalseKeyword);
                        ("required", TrueKeyword);
                        ("type", ArrowFunction (Identifier "String"));
                        ("nullable", TrueKeyword)])])))].
Proof. split; reflexivity. Qed.

(** ** More on the class scan *)

Section ScanEntries.
Context (U : Utils) (typeChecker : TypeChecker).

(** What [addClassMetadata] does to the entry of a name. *)
Lemma addClassMetadata_lookup hostClass node objectLiteral sourceFile
    (metadata : ClassMetadata) n :
  addClassMetadata hostClass node objectLiteral sourceFile metadata !! n
  = metadata !! n
  \/ (addClassMetadata hostClass node objectLiteral sourceFile metadata !! n
      = Some objectLiteral
      /\ (exists c, className hostClass = Some c /\ truthy c = true)
      /\ exists pn,
           name node = Some pn /\ nameText pn = n
           /\ nameKind pn <> ComputedPropertyName /\ truthy n = true).
Proof.
  unfold addClassMetadata.
  destruct (className hostClass) as [c|]; [|auto].
  destruct (truthy c) eqn:Hc; [|auto]. simpl.
  destruct (name node) as [pn|]; [|auto].
  destruct (truthy (nameText pn)) eqn:Hn; [|auto]. simpl.
  destruct (String.eqb (nameText pn) "__proto__");
    [destruct (nameKind pn); auto|].
  destruct (String.eqb_spec (nameText pn) n) as [Heq|Hne].
  - destruct (nameKind pn) eqn:Hkind; auto; right;
      (split; [subst n; apply lookup_insert_eq|]);
      (split; [eauto|]); exists pn; subst n; repeat split; auto; congruence.
  - left. destruct (nameKind pn); auto; now apply lookup_insert_ne.
Qed.

Lemma addClassMetadata_named hostClass node objectLiteral sourceFile
    (metadata : ClassMetadata) c pn :
  className hostClass = Some c -> truthy c = true ->
  name node = Some pn -> truthy (nameText pn) = true ->
  nameKind pn <> ComputedPropertyName ->
  nameText pn <> "__proto__" ->
  addClassMetadata hostClass node objectLiteral sourceFile metadata
  = <[nameText pn := objectLiteral]> metadata.
Proof.
  intros Hc Htc Hn Htn Hkind Hproto. unfold addClassMetadata.
  rewrite Hc, Htc, Hn, Htn. simpl.
  destruct (String.eqb_spec (nameText pn) "__proto__"); [contradiction|].
  destruct (nameKind pn); congruence.
Qed.

Lemma propertyNodeVisitor_unresolved hostClass options sourceFile metadata
    child :
  isResolved child = false ->
  propertyNodeVisitor U typeChecker hostClass options sourceFile metadata child
  = Return metadata.
Proof.
  destruct child as [node| |]; simpl; try reflexivity.
  destruct (getDecoratorOrUndefinedByNames _ _); [reflexivity|].
  destruct (existsb _ _); [reflexivity | discriminate].
Qed.

Lemma propertyNodeVisitor_resolved hostClass options sourceFile metadata node :
  isResolved (PropertyDeclaration node) = true ->
  propertyNodeVisitor U typeChecker hostClass options sourceFile metadata
    (PropertyDeclaration node)
  = match createDecoratorObjectLiteralExpr U typeChecker node [] options
            (fileName sourceFile) (Some sourceFile) with
    | Throw => Return metadata
    | Return record =>
        Return (addClassMetadata hostClass node record sourceFile metadata)
    end.
Proof.
  simpl. destruct (getDecoratorOrUndefinedByNames _ _); [discriminate|].
  destruct (existsb _ _); [discriminate|]. intros _.
  unfold inspectPropertyDeclaration.
  destruct (createDecoratorObjectLiteralExpr _ _ _ _ _ _ _); reflexivity.
Qed.

(** The visitor changes the entry of a name only for a resolved property of
    that name. *)
Lemma propertyNodeVisitor_lookup_other hostClass options sourceFile metadata
    child metadata' n :
  (forall node, child = PropertyDeclaration node ->
                propertyNameText node <> Some n) ->
  propertyNodeVisitor U typeChecker hostClass options sourceFile metadata child
  = Return metadata' ->
  metadata' !! n = metadata !! n.
Proof.
  intros Hother H. destruct (isResolved child) eqn:Hres.
  2:{ rewrite propertyNodeVisitor_unresolved in H by assumption.
      now injection H as <-. }
  destruct child as [node| |]; try discriminate.
  rewrite propertyNodeVisitor_resolved in H by assumption.
  destruct (createDecoratorObjectLiteralExpr _ _ _ _ _ _ _) as [|record];
    injection H as <-; [reflexivity|].
  destruct (addClassMetadata_lookup hostClass node record sourceFile metadata n)
    as [Hsame|(_ & _ & pn & Hname & Htext & _)]; [assumption|].
  exfalso. apply (Hother node eq_refl). unfold propertyNameText.
  rewrite Hname. simpl. now rewrite Htext.
Qed.

Lemma visitEachChild_lookup_other hostClass options sourceFile children
    metadata metadata' n :
  (forall node, PropertyDeclaration node ∈ children ->
                propertyNameText node <> Some n) ->
  visitEachChild U typeChecker hostClass options sourceFile children metadata
  = Return metadata' ->
  metadata' !! n = metadata !! n.
Proof.
  revert metadata. induction children as [|child children IH];
    intros metadata Hother H.
  - now injection H as <-.
  - rewrite visitEachChild_cons in H. exc_inv H.
    rewrite (IH r) by (try assumption; intros node Hin; apply Hother;
                       now right).
    eapply propertyNodeVisitor_lookup_other; [|eassumption].
    intros node ->. apply Hother. left.
Qed.

(** The scan reads the class it is in for its name only. *)
Lemma visitEachChild_host host1 host2 options sourceFile children metadata :
  className host1 = className host2 ->
  visitEachChild U typeChecker host1 options sourceFile children metadata
  = visitEachChild U typeChecker host2 options sourceFile children metadata.
Proof.
  intros Hname. revert metadata.
  induction children as [|child children IH]; intros metadata;
    [reflexivity|].
  rewrite !visitEachChild_cons.
  assert (Hvisit :
    propertyNodeVisitor U typeChecker host1 options sourceFile metadata child
    = propertyNodeVisitor U typeChecker host2 options sourceFile metadata
        child).
  { destruct child as [node| |]; simpl; try reflexivity.
    unfold inspectPropertyDeclaration, addClassMetadata. now rewrite Hname. }
  rewrite Hvisit.
  destruct (propertyNodeVisitor _ _ host2 _ _ _ _); [reflexivity|].
  rewrite !bind_Return. apply IH.
Qed.

End ScanEntries.

(** X1.  The scan of the members of a class is the scan of the property
    declarations among them that are neither hidden nor static, in the same
    order: the other members, and what resolving a hidden or static property
    would return or throw, have no effect on the metadata map. *)
Theorem scan_skips_hidden_and_static (U : Utils) (typeChecker : TypeChecker)
    (hostClass : ClassDeclaration) (options : PluginOptions)
    (sourceFile : SourceFile) (children : list ClassElement)
    (metadata : ClassMetadata) :
  visitEachChild U typeChecker hostClass options sourceFile children metadata
  = visitEachChild U typeChecker hostClass options sourceFile
      (List.filter isResolved children) metadata.
Proof.
  revert metadata. induction children as [|child children IH];
    intros metadata; [reflexivity|].
  simpl List.filter. destruct (isResolved child) eqn:Hres.
  - rewrite !visitEachChild_cons.
    destruct (propertyNodeVisitor _ _ _ _ _ _ _); [reflexivity|].
    rewrite !bind_Return. apply IH.
  - rewrite visitEachChild_cons, propertyNodeVisitor_unresolved by assumption.
    rewrite bind_Return. apply IH.
Qed.

(** X2.  Every entry of the map a scan returns was in the map it started
    from, or is the record of a property declaration of the class that is
    neither hidden nor static, whose name is not computed and has the entry's
    non-empty key as its text, in a class with a non-empty name. *)
Theorem scan_entries_are_resolved_properties (U : Utils)
    (typeChecker : TypeChecker) (hostClass : ClassDeclaration)
    (options : PluginOptions) (sourceFile : SourceFile)
    (children : list ClassElement) (metadata metadata' : ClassMetadata)
    (n : string) (record : Expression) :
  visitEachChild U typeChecker hostClass options sourceFile children metadata
  = Return metadata' ->
  metadata' !! n = Some record ->
  metadata !! n = Some record
  \/ exists node pn,
       PropertyDeclaration node ∈ children
       /\ isResolved (PropertyDeclaration node) = true
       /\ name node = Some pn
       /\ nameText pn = n
       /\ nameKind pn <> ComputedPropertyName
       /\ truthy n = true
       /\ (exists c, className hostClass = Some c /\ truthy c = true)
       /\ createDecoratorObjectLiteralExpr U typeChecker node [] options
            (fileName sourceFile) (Some sourceFile) = Return record.
Proof.
  revert metadata. induction children as [|child children IH];
    intros metadata H Hentry.
  - injection H as <-. auto.
  - rewrite visitEachChild_cons in H. exc_inv H.
    destruct (IH r H Hentry)
      as [Hr'|(node & pn & Hin & Hrest)].
    2:{ right. exists node, pn. split; [now right | exact Hrest]. }
    destruct (isResolved child) eqn:Hres.
    2:{ rewrite propertyNodeVisitor_unresolved in Hr by assumption.
        injection Hr as <-. auto. }
    destruct child as [node| |]; try discriminate.
    rewrite propertyNodeVisitor_resolved in Hr by assumption.
    destruct (createDecoratorObjectLiteralExpr _ _ _ _ _ _ _)
      as [|resolved] eqn:Hresolved; injection Hr as <-; [auto|].
    destruct (addClassMetadata_lookup hostClass node resolved sourceFile
                metadata n)
      as [Hsame|(Hnew & Hclass & pn & Hname & Htext & Hkind & Htruthy)].
    + left. congruence.
    + right. exists node, pn.
      assert (resolved = record) by congruence. subst resolved.
      split; [left|]. auto 10.
Qed.

(** [class Dog]: the entry [name] of the scan is the record of the second
    declaration of [name]. *)
Lemma scan_entries_are_resolved_properties_witness :
  (∅ : ClassMetadata) !! "name"
  = Some (ObjectLiteralExpression
            [("required", TrueKeyword);
             ("type", ArrowFunction (Identifier "Number"));
             ("default", SourceExpression "3")])
  \/ exists node pn,
       PropertyDeclaration node ∈ members Inputs.dog
       /\ isResolved (PropertyDeclaration node) = true
       /\ name node = Some pn
       /\ nameText pn = "name"
       /\ nameKind pn <> ComputedPropertyName
       /\ truthy "name" = true
       /\ (exists c, className Inputs.dog = Some c /\ truthy c = true)
       /\ createDecoratorObjectLiteralExpr Demo.utils Demo.checker node []
            Demo.options (fileName Demo.sourceFile) (Some Demo.sourceFile)
          = Return (ObjectLiteralExpression
                      [("required", TrueKeyword);
                       ("type", ArrowFunction (Identifier "Number"));
                       ("default", SourceExpression "3")]).
Proof.
  eapply (scan_entries_are_resolved_properties Demo.utils Demo.checker
            Inputs.dog Demo.options Demo.sourceFile (members Inputs.dog) ∅).
  - reflexivity.
  - reflexivity.
Defined.

(** X3.  In a class with a non-empty name, a property declaration that is
    neither hidden nor static, has a non-empty name that is not computed and
    is not [__proto__], and resolves to a record is entered under its name,
    and the entry stands at the end of the scan when no later property
    declaration has the same name: of two declarations of one name the later
    replaces the earlier whole. *)
Theorem last_resolved_declaration_is_recorded (U : Utils)
    (typeChecker : TypeChecker) (hostClass : ClassDeclaration)
    (options : PluginOptions) (sourceFile : SourceFile)
    (before after : list ClassElement) (node : Property) (pn : PropertyName)
    (c : string) (record : Expression) (metadata : ClassMetadata) :
  className hostClass = Some c ->
  truthy c = true ->
  isResolved (PropertyDeclaration node) = true ->
  name node = Some pn ->
  truthy (nameText pn) = true ->
  nameKind pn <> ComputedPropertyName ->
  nameText pn <> "__proto__" ->
  createDecoratorObjectLiteralExpr U typeChecker node [] options
    (fileName sourceFile) (Some sourceFile) = Return record ->
  (forall other, PropertyDeclaration other ∈ after ->
                 propertyNameText other <> Some (nameText pn)) ->
  exists metadata',
    visitEachChild U typeChecker hostClass options sourceFile
      (before ++ PropertyDeclaration node :: after) metadata
    = Return metadata'
    /\ metadata' !! nameText pn = Some record.
Proof.
  intros Hc Htc Hres Hname Htn Hkind Hproto Hrecord Hafter.
  rewrite visitEachChild_app.
  destruct (visitEachChild_returns U typeChecker hostClass options sourceFile
              before metadata) as [m1 ->].
  rewrite bind_Return, visitEachChild_cons.
  rewrite propertyNodeVisitor_resolved by assumption.
  rewrite Hrecord, bind_Return.
  rewrite (addClassMetadata_named _ _ _ _ _ c pn) by assumption.
  destruct (visitEachChild_returns U typeChecker hostClass options sourceFile
              after (<[nameText pn := record]> m1)) as [m2 Hm2].
  exists m2. split; [assumption|].
  rewrite (visitEachChild_lookup_other U typeChecker _ _ _ _ _ _ _ Hafter Hm2).
  apply lookup_insert_eq.
Qed.

(** [class Dog]: the second declaration of [name] is the one recorded. *)
Lemma last_resolved_declaration_is_recorded_witness :
  exists metadata',
    visitEachChild Demo.utils Demo.checker Inputs.dog Demo.options
      Demo.sourceFile (members Inputs.dog) ∅ = Return metadata'
    /\ metadata' !! "name"
       = Some (ObjectLiteralExpression
                 [("required", TrueKeyword);
                  ("type", ArrowFunction (Identifier "Number"));
                  ("default", SourceExpression "3")]).
Proof.
  refine (last_resolved_declaration_is_recorded Demo.utils Demo.checker
            Inputs.dog Demo.options Demo.sourceFile
            [PropertyDeclaration Inputs.hidden;
             PropertyDeclaration Inputs.static;
             OtherClassElement "bark() {}";
             PropertyDeclaration
               (Demo.property "name" true (Some (OtherTypeNode "string")) None)]
            []
            (Demo.property "name" false (Some (OtherTypeNode "number"))
               (Some (SourceExpression "3")))
            (mkPropertyName IdentifierName "name") "Dog" _ ∅
            eq_refl eq_refl eq_refl eq_refl eq_refl _ _ eq_refl _).
  - discriminate.
  - discriminate.
  - intros other Hin. inversion Hin.
Defined.

(** X4.  Scanning a class that already has its factory gives the metadata
    of the class without it: the factory [addMetadataFactory] appends is not
    a property declaration. *)
Theorem rescan_gives_same_metadata (U : Utils) (typeChecker : TypeChecker)
    (METADATA_FACTORY_NAME : string) (node : ClassDeclaration)
    (options : PluginOptions) (sourceFile : SourceFile)
    (classMetadata : ClassMetadata) :
  scanClass U typeChecker
    (addMetadataFactory METADATA_FACTORY_NAME node classMetadata) options
    sourceFile
  = scanClass U typeChecker node options sourceFile.
Proof.
  unfold scanClass. simpl members.
  rewrite visitEachChild_app.
  rewrite (visitEachChild_host U typeChecker
             (addMetadataFactory METADATA_FACTORY_NAME node classMetadata)
             node) by reflexivity.
  destruct (visitEachChild U typeChecker node options sourceFile
              (members node) ∅); reflexivity.
Qed.

(** ** The traversal of a file *)

Section FileTraversal.
Context (U : Utils) (typeChecker : TypeChecker).
Context (METADATA_FACTORY_NAME : string).

Lemma visitFileNode_other options sourceFile text children :
  visitFileNode U typeChecker METADATA_FACTORY_NAME options sourceFile
    (OtherNode text children)
  = (children ←
       visitFileNodes U typeChecker METADATA_FACTORY_NAME options sourceFile
         children;
     mret (OtherNode text children)).
Proof.
  simpl. f_equal. induction children as [|child children IH];
    [reflexivity|].
  simpl. now rewrite IH.
Qed.

Lemma classesOf_other text children :
  classesOf (OtherNode text children) = classesOfAll children.
Proof.
  unfold classesOfAll. simpl.
  induction children as [|child children IH]; [reflexivity|].
  simpl. now rewrite IH.
Qed.

End FileTraversal.

(** X5.  The visitor of a file always returns, whatever the checker and the
    helpers throw.  In what it returns, the class declarations it reaches are
    those of the input, in the same order, each with one more member: the
    factory over the metadata of the scan of that class alone. *)
Theorem every_class_gets_its_own_factory (U : Utils)
    (typeChecker : TypeChecker) (METADATA_FACTORY_NAME : string)
    (options : PluginOptions) (sourceFile : SourceFile) (node : FileNode) :
  exists visited,
    visitFileNode U typeChecker METADATA_FACTORY_NAME options sourceFile node
    = Return visited
    /\ Forall2
         (fun before after =>
            exists classMetadata,
              scanClass U typeChecker before options sourceFile
              = Return classMetadata
              /\ after = {| className := className before;
                            members :=
                              members before
                              ++ [MetadataFactoryMethod METADATA_FACTORY_NAME
                                    classMetadata] |})
         (classesOf node) (classesOf visited).
Proof.
  induction node as [c|text children IH] using FileNode_nested_ind.
  - simpl. unfold visitClassNode.
    destruct (visitEachChild_returns U typeChecker c options sourceFile
                (members c) ∅) as [classMetadata Hscan].
    unfold scanClass at 1. rewrite Hscan, !bind_Return.
    eexists. split; [reflexivity|]. simpl.
    constructor; [|constructor]. exists classMetadata. split; [|reflexivity].
    exact Hscan.
  - rewrite visitFileNode_other, classesOf_other.
    assert (Hall : exists visited,
      visitFileNodes U typeChecker METADATA_FACTORY_NAME options sourceFile
        children = Return visited
      /\ Forall2
           (fun before after =>
              exists classMetadata,
                scanClass U typeChecker before options sourceFile
                = Return classMetadata
                /\ after = {| className := className before;
                              members :=
                                members before
                                ++ [MetadataFactoryMethod
                                      METADATA_FACTORY_NAME classMetadata] |})
           (classesOfAll children) (classesOfAll visited)).
    { induction IH as [|child children (child' & Hchild & Hclasses) _ IHrest].
      - exists []. split; [reflexivity | constructor].
      - destruct IHrest as (rest' & Hrest & Hrestclasses).
        exists (child' :: rest'). simpl. rewrite Hchild, bind_Return.
        rewrite Hrest, bind_Return. split; [reflexivity|].
        unfold classesOfAll. simpl. now apply Forall2_app. }
    destruct Hall as (visited & Hvisited & Hclasses).
    exists (OtherNode text visited). rewrite Hvisited, bind_Return.
    split; [reflexivity|]. now rewrite classesOf_other.
Qed.

(** ** More on the resolvers *)

(** X6.  Whatever the order of the decorators, the validation extractor
    lists its assignments in the order [minimum], [maximum], [minLength],
    [maxLength], each at most once; and the value of each is the first
    argument of the first decorator of the matching name. *)
Theorem validation_bounds_in_fixed_order (node : Property) :
  sublist (keys (createValidationPropertyAssignments node))
    ["minimum"; "maximum"; "minLength"; "maxLength"]
  /\ forall key value,
       (key, value) ∈ createValidationPropertyAssignments node ->
       exists decoratorName decoratorRef,
         (decoratorName, key)
         ∈ [("Min", "minimum"); ("Max", "maximum");
            ("MinLength", "minLength"); ("MaxLength", "maxLength")]
         /\ getDecoratorOrUndefinedByNames [decoratorName] (decorators node)
            = Some decoratorRef
         /\ head (getDecoratorArguments decoratorRef) = Some value.
Proof.
  unfold createValidationPropertyAssignments, addPropertyByValidationDecorator.
  destruct (getDecoratorOrUndefinedByNames ["Min"] _) as [dmin|] eqn:Hmin;
    [destruct (head (getDecoratorArguments dmin)) as [amin|] eqn:Hamin|];
    (destruct (getDecoratorOrUndefinedByNames ["Max"] _) as [dmax|] eqn:Hmax;
     [destruct (head (getDecoratorArguments dmax)) as [amax|] eqn:Hamax|]);
    (destruct (getDecoratorOrUndefinedByNames ["MinLength"] _)
       as [dminl|] eqn:Hminl;
     [destruct (head (getDecoratorArguments dminl)) as [aminl|] eqn:Haminl|]);
    (destruct (getDecoratorOrUndefinedByNames ["MaxLength"] _)
       as [dmaxl|] eqn:Hmaxl;
     [destruct (head (getDecoratorArguments dmaxl)) as [amaxl|] eqn:Hamaxl|]);
    (split;
     [simpl;
      repeat first [apply sublist_nil | apply sublist_skip | apply sublist_cons]
     |intros key value Hin; simpl in Hin;
      repeat (apply elem_of_cons in Hin as [Hin|Hin];
              [injection Hin as -> ->;
               first
                 [ exists "Min"; eexists;
                   (split; [in_list | split; eassumption])
                 | exists "Max"; eexists;
                   (split; [in_list | split; eassumption])
                 | exists "MinLength"; eexists;
                   (split; [in_list | split; eassumption])
                 | exists "MaxLength"; eexists;
                   (split; [in_list | split; eassumption]) ]|]);
      inversion Hin]).
Qed.

(** [@Max(9) @Min(1) @Min(5) @MinLength() level]: [minimum] comes first and
    is the argument of the first [@Min]; the empty [@MinLength()] gives
    nothing. *)
Lemma validation_bounds_in_fixed_order_witness :
  createValidationPropertyAssignments Inputs.bounded
  = [("minimum", SourceExpression "1"); ("maximum", SourceExpression "9")]
  /\ exists decoratorName decoratorRef,
       (decoratorName, "minimum")
       ∈ [("Min", "minimum"); ("Max", "maximum");
          ("MinLength", "minLength"); ("MaxLength", "maxLength")]
       /\ getDecoratorOrUndefinedByNames [decoratorName]
            (decorators Inputs.bounded) = Some decoratorRef
       /\ head (getDecoratorArguments decoratorRef)
          = Some (SourceExpression "1").
Proof.
  split; [reflexivity|].
  apply (proj2 (validation_bounds_in_fixed_order Inputs.bounded)).
  in_list.
Defined.

(** X7.  [createLiteralFromAnyValue] keeps example values apart: when the
    literals of scalars are distinct for distinct scalars and are not array
    literals, two values with the same literal are the same value. *)
Theorem literal_of_value_is_injective (U : Utils) :
  (forall a b,
     createPrimitiveLiteral U a = createPrimitiveLiteral U b -> a = b) ->
  (forall a elements,
     createPrimitiveLiteral U a <> ArrayLiteralExpression elements) ->
  forall v w,
    createLiteralFromAnyValue U v = createLiteralFromAnyValue U w -> v = w.
Proof.
  intros Hinj Hscalar.
  induction v as [text|items IH] using JsValue_nested_ind; intros w H.
  - destruct w as [text'|items']; simpl in H.
    + f_equal. now apply Hinj.
    + now apply Hscalar in H.
  - destruct w as [text'|items']; simpl in H.
    + symmetry in H. now apply Hscalar in H.
    + injection H as H. f_equal. revert items' H.
      induction IH as [|item items Hitem _ IHitems]; intros items' H.
      * destruct items'; [reflexivity | discriminate].
      * destruct items' as [|item' items']; [discriminate|].
        simpl in H. injection H as Hhead Htail.
        f_equal; [now apply Hitem | now apply IHitems].
Qed.

(** The literals of [[1, [2]]] and of itself. *)
Lemma literal_of_value_is_injective_witness :
  JsArray [JsPrimitive "1"; JsArray [JsPrimitive "2"]]
  = JsArray [JsPrimitive "1"; JsArray [JsPrimitive "2"]].
Proof.
  refine (literal_of_value_is_injective Demo.utils _ _ _ _ eq_refl).
  - intros a b H. now injection H.
  - intros a elements H. discriminate H.
Defined.

Section RecordFacts.
Context (U : Utils) (typeChecker : TypeChecker).

Lemma createTypePropertyAssignments_no_key node existing hostFilename tys k :
  createTypePropertyAssignments U typeChecker node existing hostFilename
  = Return tys ->
  k <> "type" -> k <> "nullable" -> assignmentsFor k tys = [].
Proof.
  intros H Ht Hn. apply assignmentsFor_absent. intros Hk.
  eapply createTypePropertyAssignments_keys in Hk as [?|?]; [| |eassumption];
    congruence.
Qed.

(** A type node that is not a union contributes [type] or nothing. *)
Lemma createTypePropertyAssignments_not_union node existing hostFilename tys :
  match node with
  | Some n => isUnionTypeNode n = false
  | None => True
  end ->
  createTypePropertyAssignments U typeChecker node existing hostFilename
  = Return tys ->
  tys = [] \/ exists value, tys = [createPropertyAssignment "type" value].
Proof.
  intros Hnode.
  destruct (hasPropertyKey "type" existing) eqn:Hkey.
  { rewrite createTypePropertyAssignments_explicit by assumption.
    intros H. injection H as <-. auto. }
  destruct node as [[ms|types| |text]|]; try discriminate.
  - rewrite createTypePropertyAssignments_literal by assumption.
    intros H. exc_inv H. injection H as <-. eauto.
  - rewrite createTypePropertyAssignments_other by auto. intros H.
    apply typeReferenceAssignments_Return in H as [->|[r ->]]; eauto.
  - rewrite createTypePropertyAssignments_other by auto. intros H.
    apply typeReferenceAssignments_Return in H as [->|[r ->]]; eauto.
  - rewrite createTypePropertyAssignments_other by auto. intros H.
    apply typeReferenceAssignments_Return in H as [->|[r ->]]; eauto.
Qed.

Lemma withoutFirstNullLike_length types :
  length (withoutFirstNullLike types)
  = if existsb isNullLike types then length types - 1 else length types.
Proof.
  induction types as [|t types IH]; [reflexivity|].
  simpl. destruct (isNullLike t); simpl; [lia|].
  rewrite IH. destruct (existsb isNullLike types) eqn:Hex; [|reflexivity].
  destruct types; [discriminate | simpl; lia].
Qed.

Lemma find_isNullLike types :
  bool_decide (is_Some (find isNullLike types)) = existsb isNullLike types.
Proof.
  induction types as [|t types IH]; [reflexivity|].
  simpl. destruct (isNullLike t); [|exact IH].
  apply bool_decide_eq_true. eauto.
Qed.

End RecordFacts.

(** X8.  With no explicit [required], and a description key other than
    [required], every record has exactly one assignment [required]: [true]
    when the property has no question token, [false] when it has one. *)
Theorem required_reflects_question_token (U : Utils)
    (typeChecker : TypeChecker) (node : Property)
    (existing : list PropertyAssignment) (options : PluginOptions)
    (hostFilename : string) (sourceFile : option SourceFile)
    (properties : list PropertyAssignment) :
  hasPropertyKey "required" existing = false ->
  dtoKeyOfComment options <> "required" ->
  createDecoratorObjectLiteralExpr U typeChecker node existing options
    hostFilename sourceFile = Return (ObjectLiteralExpression properties) ->
  assignmentsFor "required" properties
  = [createPropertyAssignment "required"
       (if questionToken node then FalseKeyword else TrueKeyword)].
Proof.
  intros Hkey Hdesc H.
  apply createDecoratorObjectLiteralExpr_Return in H
    as (tys & docs & enum & Htys & Hdocs & Henum & Hrecord).
  injection Hrecord as ->. unfold inferredAssignments.
  rewrite Hkey, !assignmentsFor_app.
  rewrite (assignmentsFor_absent "required" existing)
    by now apply hasPropertyKey_not_elem.
  rewrite (createTypePropertyAssignments_no_key _ _ _ _ _ _ _ Htys)
    by discriminate.
  rewrite (assignmentsFor_absent "required" docs).
  2:{ intros Hk.
      eapply createDescriptionAndExamplePropertyAssigments_keys in Hk
        as [[Hk _]|[[Hk|Hk] _]]; [| | |eassumption];
        [congruence | discriminate | discriminate]. }
  rewrite (assignmentsFor_absent "required"
             (assignmentsOf (createDefaultPropertyAssignment node existing))).
  2:{ intros Hk. apply createDefaultPropertyAssignment_keys in Hk as [Hk _].
      discriminate. }
  rewrite (assignmentsFor_absent "required" (assignmentsOf enum)).
  2:{ intros Hk.
      eapply createEnumPropertyAssignment_keys in Hk as [[Hk|Hk] _];
        [| |eassumption]; discriminate. }
  rewrite (assignmentsFor_absent "required"
             (if classValidatorShim options then _ else _)).
  2:{ destruct (classValidatorShim options); [|inversion 1].
      intros Hk. apply createValidationPropertyAssignments_keys in Hk.
      apply list_elem_of_In in Hk. simpl in Hk.
      repeat (destruct Hk as [Hk|Hk]; [discriminate|]). contradiction. }
  simpl. destruct (questionToken node); reflexivity.
Qed.

(** [name?: string] is not required. *)
Lemma required_reflects_question_token_witness :
  assignmentsFor "required"
    [("required", FalseKeyword);
     ("type", ArrowFunction (Identifier "String"))]
  = [("required", FalseKeyword)].
Proof.
  refine (required_reflects_question_token Demo.utils Demo.checker
            (Demo.property "name" true (Some (OtherTypeNode "string")) None)
            [] Demo.options "cat.dto.ts" (Some Demo.sourceFile) _
            eq_refl _ eq_refl).
  discriminate.
Defined.

(** X9.  Setting [classValidatorShim] only appends: the record with the
    flag set is the record without it followed by the validation bounds, and
    resolution throws with the flag set exactly when it throws without. *)
Theorem validator_shim_only_appends (U : Utils) (typeChecker : TypeChecker)
    (node : Property) (existing : list PropertyAssignment)
    (comments : bool) (keyOfComment hostFilename : string)
    (sourceFile : option SourceFile) :
  createDecoratorObjectLiteralExpr U typeChecker node existing
    {| introspectComments := comments;
       classValidatorShim := true;
       dtoKeyOfComment := keyOfComment |} hostFilename sourceFile
  = match
      createDecoratorObjectLiteralExpr U typeChecker node existing
        {| introspectComments := comments;
           classValidatorShim := false;
           dtoKeyOfComment := keyOfComment |} hostFilename sourceFile
    with
    | Return (ObjectLiteralExpression properties) =>
        Return (ObjectLiteralExpression
                  (properties ++ createValidationPropertyAssignments node))
    | outcome => outcome
    end.
Proof.
  unfold createDecoratorObjectLiteralExpr.
  rewrite !decoratorObjectLiteralExprOf_eq.
  destruct (createTypePropertyAssignments _ _ _ _ _) as [|tys];
    [reflexivity|].
  rewrite !bind_Return.
  change (createDescriptionAndExamplePropertyAssigments U typeChecker node
            existing
            {| introspectComments := comments;
               classValidatorShim := true;
               dtoKeyOfComment := keyOfComment |} sourceFile)
    with (createDescriptionAndExamplePropertyAssigments U typeChecker node
            existing
            {| introspectComments := comments;
               classValidatorShim := false;
               dtoKeyOfComment := keyOfComment |} sourceFile).
  destruct (createDescriptionAndExamplePropertyAssigments _ _ _ _ _ _)
    as [|docs]; [reflexivity|].
  rewrite !bind_Return.
  destruct (createEnumPropertyAssignment _ _ _ _ _) as [|enum];
    [reflexivity|].
  rewrite !bind_Return. unfold inferredAssignments. simpl.
  now rewrite app_nil_r, <- !app_assoc.
Qed.

(** X10.  With [type] and [enum] explicit and comments not introspected,
    resolution consults neither the checker nor a helper that may throw: it
    returns the explicit assignments followed by [required] (unless
    explicit), [default] and, with [classValidatorShim], the bounds. *)
Theorem explicit_type_and_enum_never_throw (U : Utils)
    (typeChecker : TypeChecker) (node : Property)
    (existing : list PropertyAssignment) (options : PluginOptions)
    (hostFilename : string) (sourceFile : option SourceFile) :
  hasPropertyKey "type" existing = true ->
  hasPropertyKey "enum" existing = true ->
  introspectComments options = false ->
  createDecoratorObjectLiteralExpr U typeChecker node existing options
    hostFilename sourceFile
  = Return
      (ObjectLiteralExpression
         (existing
          ++ (if hasPropertyKey "required" existing then []
              else [createPropertyAssignment "required"
                      (createBooleanLiteral (negb (questionToken node)))])
          ++ assignmentsOf (createDefaultPropertyAssignment node existing)
          ++ (if classValidatorShim options
              then createValidationPropertyAssignments node else []))).
Proof.
  intros Htype Henum Hcomments. unfold createDecoratorObjectLiteralExpr.
  rewrite decoratorObjectLiteralExprOf_eq.
  rewrite createTypePropertyAssignments_explicit by assumption.
  rewrite bind_Return.
  unfold createDescriptionAndExamplePropertyAssigments at 1.
  rewrite Hcomments, bind_Return.
  rewrite createEnumPropertyAssignment_explicit by assumption.
  rewrite bind_Return. reflexivity.
Qed.

(** With a checker that throws at every location, [age = 3] with explicit
    [type] and [enum] still resolves. *)
Lemma explicit_type_and_enum_never_throw_witness :
  createDecoratorObjectLiteralExpr Demo.utils Inputs.throwingChecker
    (Demo.property "age" false (Some (OtherTypeNode "number"))
       (Some (SourceExpression "3")))
    [("type", ArrowFunction (Identifier "Number"));
     ("enum", Identifier "Age")]
    Demo.options "cat.dto.ts" (Some Demo.sourceFile)
  = Return
      (ObjectLiteralExpression
         [("type", ArrowFunction (Identifier "Number"));
          ("enum", Identifier "Age");
          ("required", TrueKeyword);
          ("default", SourceExpression "3")]).
Proof.
  exact (explicit_type_and_enum_never_throw Demo.utils Inputs.throwingChecker
           (Demo.property "age" false (Some (OtherTypeNode "number"))
              (Some (SourceExpression "3")))
           [("type", ArrowFunction (Identifier "Number"));
            ("enum", Identifier "Age")]
           Demo.options "cat.dto.ts" (Some Demo.sourceFile)
           eq_refl eq_refl eq_refl).
Defined.

(** X11.  For a type node whose union constituents are not unions
    themselves, as the parser builds them, the type resolver returns at most
    two assignments: at most one [type], then at most one [nullable], whose
    value is [true]. *)
Theorem type_contribution_has_at_most_two (U : Utils)
    (typeChecker : TypeChecker) (node : option TypeNode)
    (existing : list PropertyAssignment) (hostFilename : string)
    (tys : list PropertyAssignment) :
  (forall types, node = Some (UnionTypeNode types) ->
                 Forall (fun t => isUnionTypeNode t = false) types) ->
  createTypePropertyAssignments U typeChecker node existing hostFilename
  = Return tys ->
  length tys <= 2
  /\ exists typePart nullablePart,
       tys = typePart ++ nullablePart
       /\ (typePart = []
           \/ exists value, typePart = [createPropertyAssignment "type" value])
       /\ (nullablePart = []
           \/ nullablePart = [createPropertyAssignment "nullable" TrueKeyword]).
Proof.
  intros Hflat H.
  assert (Hshape : exists typePart nullablePart,
    tys = typePart ++ nullablePart
    /\ (typePart = []
        \/ exists value, typePart = [createPropertyAssignment "type" value])
    /\ (nullablePart = []
        \/ nullablePart = [createPropertyAssignment "nullable" TrueKeyword])).
  { destruct (hasPropertyKey "type" existing) eqn:Hkey.
    { rewrite createTypePropertyAssignments_explicit in H by assumption.
      injection H as <-. exists [], []. auto. }
    destruct node as [[ms|types| |text]|];
      try (apply createTypePropertyAssignments_not_union in H; [|exact I
             || reflexivity];
           exists tys, []; rewrite app_nil_r; auto).
    rewrite createTypePropertyAssignments_union in H by assumption.
    destruct (withoutFirstNullLike types) as [|t [|t' rest]] eqn:Hrem;
      try (apply typeReferenceAssignments_Return in H;
           exists tys, []; rewrite app_nil_r;
           (split; [reflexivity|split; [|auto]]);
           destruct H as [->|[r ->]]; now eauto).
    exc_inv H. injection H as <-.
    assert (Ht : isUnionTypeNode t = false).
    { specialize (Hflat types eq_refl). rewrite Forall_forall in Hflat.
      apply Hflat, withoutFirstNullLike_subset. rewrite Hrem. left. }
    apply createTypePropertyAssignments_not_union in Hr; [|exact Ht].
    destruct (bool_decide _).
    - exists r, [createPropertyAssignment "nullable" TrueKeyword]. auto.
    - exists r, []. rewrite app_nil_r. auto. }
  split; [|exact Hshape].
  destruct Hshape as (tp & np & -> & [->|[v ->]] & [->| ->]); simpl; lia.
Qed.

(** [string | null] contributes [type] and [nullable]. *)
Lemma type_contribution_has_at_most_two_witness :
  length [("type", ArrowFunction (Identifier "String"));
          ("nullable", TrueKeyword)] <= 2
  /\ exists typePart nullablePart,
       [("type", ArrowFunction (Identifier "String"));
        ("nullable", TrueKeyword)] = typePart ++ nullablePart
       /\ (typePart = []
           \/ exists value, typePart = [createPropertyAssignment "type" value])
       /\ (nullablePart = []
           \/ nullablePart = [createPropertyAssignment "nullable" TrueKeyword]).
Proof.
  refine (type_contribution_has_at_most_two Demo.utils Demo.checker
            (Some (UnionTypeNode [OtherTypeNode "string"; NullKeyword])) []
            "cat.dto.ts" _ _ eq_refl).
  intros types H. injection H as <-. repeat constructor.
Defined.

(** X12.  For a union whose constituents are not unions, and no explicit
    [type], the type resolver contributes [nullable] exactly when the union
    has two members of which one is null-like. *)
Theorem nullable_exactly_for_two_member_unions (U : Utils)
    (typeChecker : TypeChecker) (types : list TypeNode)
    (existing : list PropertyAssignment) (hostFilename : string)
    (tys : list PropertyAssignment) :
  Forall (fun t => isUnionTypeNode t = false) types ->
  hasPropertyKey "type" existing = false ->
  createTypePropertyAssignments U typeChecker (Some (UnionTypeNode types))
    existing hostFilename = Return tys ->
  "nullable" ∈ keys tys
  <-> length types = 2 /\ existsb isNullLike types = true.
Proof.
  intros Hflat Hkey H.
  rewrite createTypePropertyAssignments_union in H by assumption.
  pose proof (withoutFirstNullLike_length types) as Hlen.
  rewrite find_isNullLike in H.
  destruct (withoutFirstNullLike types) as [|t [|t' rest]] eqn:Hrem.
  - apply typeReferenceAssignments_Return in H as [->|[r ->]];
      (split; [intros Hin|intros [Hl Hn]; rewrite Hn in Hlen; simpl in Hlen;
                          lia]).
    + inversion Hin.
    + apply list_elem_of_singleton in Hin. discriminate.
  - exc_inv H. injection H as <-.
    assert (Ht : isUnionTypeNode t = false).
    { rewrite Forall_forall in Hflat.
      apply Hflat, withoutFirstNullLike_subset. rewrite Hrem. left. }
    apply createTypePropertyAssignments_not_union in Hr; [|exact Ht].
    destruct (existsb isNullLike types) eqn:Hn; simpl in Hlen.
    + split; [intros _; split; [lia | reflexivity]|intros _].
      rewrite keys_app, elem_of_app. right. left.
    + split; [|intros [_ Hfalse]; discriminate].
      intros Hin. destruct Hr as [->|[v ->]].
      * inversion Hin.
      * apply list_elem_of_singleton in Hin. discriminate.
  - apply typeReferenceAssignments_Return in H as [->|[r ->]];
      (split; [intros Hin|intros [Hl Hn]; rewrite Hn in Hlen; simpl in Hlen;
                          lia]).
    + inversion Hin.
    + apply list_elem_of_singleton in Hin. discriminate.
Qed.

(** [string | null] has two members, one null-like. *)
Lemma nullable_exactly_for_two_member_unions_witness :
  "nullable" ∈ keys [("type", ArrowFunction (Identifier "String"));
                     ("nullable", TrueKeyword)]
  <-> length [OtherTypeNode "string"; NullKeyword] = 2
      /\ existsb isNullLike [OtherTypeNode "string"; NullKeyword] = true.
Proof.
  refine (nullable_exactly_for_two_member_unions Demo.utils Demo.checker
            [OtherTypeNode "string"; NullKeyword] [] "cat.dto.ts" _ _ eq_refl
            eq_refl).
  repeat constructor.
Defined.

(** X13.  The enum resolver returns nothing, the one assignment [enum] with
    an identifier, or [enum] followed by [isArray = true]: it never
    contributes [isArray] alone, nor [isArray = false]. *)
Theorem enum_contribution_shapes (U : Utils) (typeChecker : TypeChecker)
    (node : Property) (existing : list PropertyAssignment)
    (hostFilename : string) (contribution : Slot) :
  createEnumPropertyAssignment U typeChecker node existing hostFilename
  = Return contribution ->
  contribution = Falsy
  \/ exists enumRef,
       contribution = One (createPropertyAssignment "enum" (Identifier enumRef))
       \/ contribution
          = Many [createPropertyAssignment "enum" (Identifier enumRef);
                  createPropertyAssignment "isArray" (Identifier "true")].
Proof.
  assert (Hend : forall t isArrayType s,
    enumAssignmentOf U typeChecker t isArrayType hostFilename = Return s ->
    s = Falsy
    \/ exists enumRef,
         s = One (createPropertyAssignment "enum" (Identifier enumRef))
         \/ s = Many [createPropertyAssignment "enum" (Identifier enumRef);
                      createPropertyAssignment "isArray" (Identifier "true")]).
  { intros t isArrayType s H. unfold enumAssignmentOf in H. exc_inv H.
    destruct isArrayType; injection H as <-; eauto. }
  unfold createEnumPropertyAssignment. intros H.
  destruct (hasPropertyKey "enum" existing); [injection H as <-; auto|].
  exc_inv H. destruct r as [t|]; [|injection H as <-; auto].
  exc_inv H. destruct r as [[t1 isArr1]|]; [|injection H as <-; auto].
  destruct (negb (isEnum U t1) || isEnumMember t1); [|eauto].
  exc_inv H. destruct r as [t2|]; [|injection H as <-; auto].
  exc_inv H. destruct r as [[t3 isArr2]|]; [|injection H as <-; auto].
  eauto.
Qed.

(** [roles: Role[]] contributes [enum] and [isArray]. *)
Lemma enum_contribution_shapes_witness :
  Many [("enum", Identifier "Role"); ("isArray", Identifier "true")] = Falsy
  \/ exists enumRef,
       Many [("enum", Identifier "Role"); ("isArray", Identifier "true")]
       = One (createPropertyAssignment "enum" (Identifier enumRef))
       \/ Many [("enum", Identifier "Role"); ("isArray", Identifier "true")]
          = Many [createPropertyAssignment "enum" (Identifier enumRef);
                  createPropertyAssignment "isArray" (Identifier "true")].
Proof.
  exact (enum_contribution_shapes Demo.utils Demo.checker
           (Demo.property "roles" false (Some (OtherTypeNode "Role[]")) None)
           [] "cat.dto.ts" _ eq_refl).
Defined.

(** X14.  When the working type unwraps to a single enum member, the enum
    resolver unwraps the member once more and takes both the enum's type and
    the array flag from this second unwrapping: the flag of the first
    unwrapping is dropped, and neither [isEnum] nor [isAutoGeneratedEnumUnion]
    is consulted about the member. *)
Theorem enum_member_is_unwrapped_again (U : Utils) (typeChecker : TypeChecker)
    (node : Property) (existing : list PropertyAssignment)
    (hostFilename : string) (t member : TsType) (firstFlag : bool) :
  hasPropertyKey "enum" existing = false ->
  getTypeAtLocation typeChecker (PropertyAt node) = Return (Some t) ->
  extractTypeArgumentIfArray U
    (if isAutoGeneratedTypeUnion U t then last (typesOf t) else Some t)
  = Return (Some (member, firstFlag)) ->
  isEnumMember member = true ->
  createEnumPropertyAssignment U typeChecker node existing hostFilename
  = (unwrapped ← extractTypeArgumentIfArray U (Some member);
     match unwrapped with
     | None => mret Falsy
     | Some (element, isArrayType) =>
         enumAssignmentOf U typeChecker element isArrayType hostFilename
     end).
Proof.
  intros Hkey Ht Hunwrap Hmember. unfold createEnumPropertyAssignment.
  rewrite Hkey, Ht, bind_Return, Hunwrap, bind_Return, Hmember.
  rewrite orb_true_r. simpl.
  destruct (extractTypeArgumentIfArray U (Some member))
    as [|[[element isArrayType]|]]; reflexivity.
Qed.

(** [flags: Flag[]] where [Flag] is a single enum member: the array found by
    the first unwrapping is not reported. *)
Lemma enum_member_is_unwrapped_again_witness :
  createEnumPropertyAssignment Inputs.utilsWithFlag Demo.checker
    (Demo.property "flags" false (Some (OtherTypeNode "Flag[]")) None) []
    "cat.dto.ts"
  = Return (One ("enum", Identifier "Flag")).
Proof.
  exact (enum_member_is_unwrapped_again Inputs.utilsWithFlag Demo.checker
           (Demo.property "flags" false (Some (OtherTypeNode "Flag[]")) None)
           [] "cat.dto.ts" (Demo.ty "Flag[]") Inputs.flag true
           eq_refl eq_refl eq_refl eq_refl).
Defined.

(** X15.  When the type resolver returns for a type literal, with no
    explicit [type], it returns one [type] assignment whose thunk lists one
    assignment per member, in the order of the members: the key is the
    member's name and the value the member's record. *)
Theorem type_literal_lists_its_members (U : Utils) (typeChecker : TypeChecker)
    (ms : list Property) (existing : list PropertyAssignment)
    (hostFilename : string) (tys : list PropertyAssignment) :
  hasPropertyKey "type" existing = false ->
  createTypePropertyAssignments U typeChecker (Some (TypeLiteralNode ms))
    existing hostFilename = Return tys ->
  exists propertyAssignments,
    tys = [createPropertyAssignment "type"
             (ArrowFunction
                (ParenthesizedExpression
                   (ObjectLiteralExpression propertyAssignments)))]
    /\ Forall2
         (fun member assignment =>
            propertyNameText member = Some assignment.1
            /\ createDecoratorObjectLiteralExpr U typeChecker member existing
                 emptyOptions hostFilename None = Return assignment.2)
         ms propertyAssignments.
Proof.
  intros Hkey H.
  rewrite createTypePropertyAssignments_literal in H by assumption.
  exc_inv H. injection H as <-. exists r. split; [reflexivity|].
  revert r Hr. induction ms as [|member ms IH]; intros pas H.
  - injection H as <-. constructor.
  - simpl in H. exc_inv H. exc_inv H. exc_inv H. injection H as <-.
    constructor; [|now apply IH]. split; [|assumption].
    unfold memberNameText in Hr0. unfold propertyNameText.
    destruct (name member); [|discriminate]. injection Hr0 as <-.
    reflexivity.
Qed.

(** [owner: { nick?: string; address: { street: string } }] lists [nick] and
    [address]. *)
Lemma type_literal_lists_its_members_witness :
  exists tys propertyAssignments,
    createTypePropertyAssignments Demo.utils Demo.checker
      (type Demo.ownerWithAddress) [] "cat.dto.ts" = Return tys
    /\ tys = [createPropertyAssignment "type"
                (ArrowFunction
                   (ParenthesizedExpression
                      (ObjectLiteralExpression propertyAssignments)))]
    /\ keys propertyAssignments = ["nick"; "address"].
Proof.
  destruct (type_literal_lists_its_members Demo.utils Demo.checker
              [Demo.property "nick" true (Some (OtherTypeNode "string")) None;
               Demo.property "address" false
                 (Some (TypeLiteralNode
                          [Demo.property "street" false
                             (Some (OtherTypeNode "string")) None]))
                 None]
              [] "cat.dto.ts" _ eq_refl eq_refl) as (pas & Htys & Hall).
  eexists _, pas. split; [reflexivity|]. split; [exact Htys|].
  injection Htys as <-. reflexivity.
Defined.

(** X16.  With no explicit [type], the type resolver throws on a type
    literal that has a member without a name, wherever the member stands and
    whatever the other members resolve to. *)
Theorem type_literal_with_unnamed_member_throws (U : Utils)
    (typeChecker : TypeChecker) (ms : list Property)
    (existing : list PropertyAssignment) (hostFilename : string)
    (member : Property) :
  hasPropertyKey "type" existing = false ->
  member ∈ ms ->
  name member = None ->
  createTypePropertyAssignments U typeChecker (Some (TypeLiteralNode ms))
    existing hostFilename = Throw.
Proof.
  intros Hkey Hin Hname.
  rewrite createTypePropertyAssignments_literal by assumption.
  assert (Hthrow :
    memberPropertyAssignments U typeChecker existing hostFilename ms = Throw).
  { induction ms as [|m ms IH]; [inversion Hin|].
    simpl. apply elem_of_cons in Hin as [<-|Hin].
    - destruct (createDecoratorObjectLiteralExpr _ _ _ _ _ _ _);
        [reflexivity|].
      rewrite bind_Return. unfold memberNameText. now rewrite Hname.
    - rewrite (IH Hin).
      destruct (createDecoratorObjectLiteralExpr _ _ _ _ _ _ _);
        [reflexivity|].
      rewrite bind_Return. destruct (memberNameText m); reflexivity. }
  now rewrite Hthrow.
Qed.

(** [lookup: { [key: string]: number }]: the index signature has no name. *)
Lemma type_literal_with_unnamed_member_throws_witness :
  createTypePropertyAssignments Demo.utils Demo.checker (type Demo.indexed)
    [] "cat.dto.ts" = Throw.
Proof.
  refine (type_literal_with_unnamed_member_throws Demo.utils Demo.checker _
            [] "cat.dto.ts"
            {| decorators := [];
               modifiers := [];
               name := None;
               questionToken := false;
               type := Some (OtherTypeNode "number");
               initializer := None |}
            eq_refl _ eq_refl).
  left.
Defined.

(** The visitor on a file with two classes: each gets its factory. *)
Example visit_file :
  (visited ←
     visitFileNode Demo.utils Demo.checker "_OPENAPI_METADATA_FACTORY"
       Demo.options Demo.sourceFile Inputs.file;
   mret (classesOf visited))
  = (scanned ←
       scanClass Demo.utils Demo.checker Demo.cat Demo.options
         Demo.sourceFile;
     scanned' ←
       scanClass Demo.utils Demo.checker Inputs.dog Demo.options
         Demo.sourceFile;
     mret [addMetadataFactory "_OPENAPI_METADATA_FACTORY" Demo.cat scanned;
           addMetadataFactory "_OPENAPI_METADATA_FACTORY" Inputs.dog
             scanned']).
Proof. reflexivity. Qed.
